(** * Agua IOT climate adapter (custom_components/aguaiot/climate.py)

    A shallow embedding of [AguaIOTHeatingDevice], the Home Assistant
    climate entity that wraps one device handle of the py_agua_iot client
    library, together with the properties its specification states.

    Layout:
    - [Py]: the few Python built-ins the adapter relies on ([str.isdigit],
      [int], [str], [range], [==], [dict.get]);
    - [Device]: the fields of a device handle and the calls the client
      library answers;
    - [Runtime]: the log, the trace of calls made on the handle and the
      state-and-exception monad the methods run in;
    - [HA]: constants of the host framework;
    - [AguaIOTHeatingDevice]: the adapter's properties and methods;
    - [Sample]: concrete handles and libraries;
    - [Stated]: the notions the specification speaks in;
    - the theorems. *)

From Stdlib Require Import ZArith QArith String Ascii List Bool Lia.
From stdpp Require Import base decidable option list list_numbers strings gmap pretty.

Local Open Scope string_scope.
Local Open Scope Z_scope.
Local Open Scope list_scope.

(* ===================================================================== *)
(** ** Python built-ins *)
(* ===================================================================== *)

Module Py.

(** A [str] is a sequence of code points.  A Rocq string literal stands
    for the [str] with the same characters: [lit] gives its code points,
    one per [ascii], and is inserted where a [str] is expected. *)
Definition text : Type := list Z.

Definition code (c : ascii) : Z := Z.of_nat (nat_of_ascii c).

Definition lit (s : string) : text := map code (list_ascii_of_string s).

Coercion lit : string >-> text.

(** Values that reach the adapter from the host framework: those of the
    built-in types [NoneType], [bool], [int], [float], [str], [bytes] and
    [bytearray].  A [bytes] or [bytearray] is a sequence of 8-bit bytes, as
    a Rocq [string] is.  Floats are only handed over, never computed with,
    so a rational stands for them. *)
Inductive pyval : Type :=
| PyNone
| PyBool (b : bool)
| PyInt (z : Z)
| PyFloat (q : Q)
| PyStr (s : text)
| PyBytes (b : string)
| PyByteArray (b : string).

(** [type(v).__name__] *)
Definition type_name (v : pyval) : string :=
  match v with
  | PyNone => "NoneType"
  | PyBool _ => "bool"
  | PyInt _ => "int"
  | PyFloat _ => "float"
  | PyStr _ => "str"
  | PyBytes _ => "bytes"
  | PyByteArray _ => "bytearray"
  end.

(** *** The character tables (Unicode 14.0, as CPython 3.11 has them) *)

Definition in_ranges (rs : list (Z * Z)) (c : Z) : bool :=
  existsb (fun r => (fst r <=? c) && (c <=? snd r)) rs.

(** Two tables of ranges share no character: each range of one ends
    before, or begins after, each range of the other. *)
Definition apart (rs1 rs2 : list (Z * Z)) : bool :=
  forallb (fun r1 =>
             forallb (fun r2 => (snd r1 <? fst r2) || (snd r2 <? fst r1)) rs2)
          rs1.

(** The decimal digits (category Nd) come in runs of ten, zero to nine:
    the code point of the zero of each run. *)
Definition decimal_zeros : list Z :=
  [48; 1632; 1776; 1984; 2406; 2534; 2662; 2790; 2918; 3046; 3174; 3302;
   3430; 3558; 3664; 3792; 3872; 4160; 4240; 6112; 6160; 6470; 6608; 6784;
   6800; 6992; 7088; 7232; 7248; 42528; 43216; 43264; 43472; 43504; 43600;
   44016; 65296; 66720; 68912; 69734; 69872; 69942; 70096; 70384; 70736;
   70864; 71248; 71360; 71472; 71904; 72016; 72784; 73040; 73120; 92768;
   92864; 93008; 120782; 120792; 120802; 120812; 120822; 123200; 123632;
   125264; 130032].

(** The value of a decimal digit; [None] for any other character. *)
Definition decimal_value (c : Z) : option Z :=
  match find (fun z => (z <=? c) && (c <=? z + 9)) decimal_zeros with
  | Some z => Some (c - z)
  | None => None
  end.

Definition is_decimal (c : Z) : bool :=
  match decimal_value c with
  | Some _ => true
  | None => false
  end.

(** The runs of decimal digits as ranges. *)
Definition decimal_ranges : list (Z * Z) :=
  map (fun z => (z, z + 9)) decimal_zeros.

(** The characters of numeric type Digit that are no decimal digits:
    superscripts, subscripts, circled digits and the like. *)
Definition other_digits : list (Z * Z) :=
  [(178, 179); (185, 185); (4969, 4977); (6618, 6618); (8304, 8304);
   (8308, 8313); (8320, 8329); (9312, 9320); (9332, 9340); (9352, 9360);
   (9450, 9450); (9461, 9469); (9471, 9471); (10102, 10110);
   (10112, 10120); (10122, 10130); (68160, 68163); (69216, 69224);
   (69714, 69722); (127232, 127242)].

(** The characters [str.isdigit] accepts. *)
Definition is_digit (c : Z) : bool := is_decimal c || in_ranges other_digits c.

(** White space beyond ASCII. *)
Definition wide_spaces : list (Z * Z) :=
  [(133, 133); (160, 160); (5760, 5760); (8192, 8202); (8232, 8233);
   (8239, 8239); (8287, 8287); (12288, 12288)].

(** ASCII white space as the integer parser skips it: tab, line feed,
    vertical tab, form feed, carriage return, space. *)
Definition is_space (c : Z) : bool := ((9 <=? c) && (c <=? 13)) || (c =? 32).

Definition is_ascii_digit (c : Z) : bool := (48 <=? c) && (c <=? 57).

(** *** [isdigit] *)

(** [s.isdigit()] for a [str]: every character is a digit and there is at
    least one. *)
Definition isdigit (s : text) : bool :=
  match s with
  | [] => false
  | c :: l => forallb is_digit (c :: l)
  end.

(** [b.isdigit()] for a [bytes] or [bytearray]: every byte is an ASCII
    digit and there is at least one. *)
Definition bytes_isdigit (b : string) : bool :=
  match lit b with
  | [] => false
  | c :: l => forallb is_ascii_digit (c :: l)
  end.

(** *** [int] *)

Fixpoint skip_space (l : list Z) : list Z :=
  match l with
  | c :: l' => if is_space c then skip_space l' else l
  | [] => []
  end.

(** The digits of a base-10 literal, with single underscores allowed
    between digits.  [after_us] tells that the previous character was an
    underscore.  Returns the value read and what follows the literal, or
    [None] on a doubled or trailing underscore. *)
Fixpoint scan_digits (acc : Z) (after_us : bool) (l : list Z)
  : option (Z * list Z) :=
  match l with
  | c :: l' =>
      if is_ascii_digit c then scan_digits (10 * acc + (c - 48)) false l'
      else if c =? 95
           then (if after_us then None else scan_digits acc true l')
           else (if after_us then None else Some (acc, l))
  | [] => if after_us then None else Some (acc, [])
  end.

Definition split_sign (l : list Z) : Z * list Z :=
  match l with
  | c :: l' =>
      if c =? 43 then (1, l')
      else if c =? 45 then (-1, l')
      else (1, l)
  | [] => (1, [])
  end.

(** The parser behind [int] in base 10, on a buffer of ASCII characters:
    optional white space, an optional sign, a digit, more digits or single
    underscores, optional white space, and nothing else.  [None] stands
    for [ValueError]. *)
Definition long_from_string (buffer : list Z) : option Z :=
  let '(sign, l) := split_sign (skip_space buffer) in
  match l with
  | c :: _ =>
      if is_ascii_digit c then
        match scan_digits 0 false l with
        | Some (n, rest) =>
            match skip_space rest with
            | [] => Some (sign * n)
            | _ :: _ => None
            end
        | None => None
        end
      else None
  | [] => None
  end.

(** What [int] makes of a [str] before parsing: ASCII characters stay,
    white space beyond ASCII becomes a space, a decimal digit of any script
    becomes the ASCII digit of its value, and at any other character the
    buffer ends in a question mark, on which the parser fails. *)
Fixpoint to_ascii (s : text) : list Z :=
  match s with
  | c :: s' =>
      if c <? 127 then c :: to_ascii s'
      else if in_ranges wide_spaces c then 32 :: to_ascii s'
      else match decimal_value c with
           | Some d => (48 + d) :: to_ascii s'
           | None => [63]
           end
  | [] => []
  end.

(** [int(s)] for a [str]: [Some n] when it returns [n], [None] when it
    raises [ValueError]. *)
Definition int (s : text) : option Z := long_from_string (to_ascii s).

(** [int(b)] for a [bytes] or [bytearray]: the bytes are parsed as they
    are. *)
Definition bytes_int (b : string) : option Z := long_from_string (lit b).

(** [str(n)] for an integer [n]: its decimal numeral, with a leading
    minus sign when negative. *)
Definition str (n : Z) : string := pretty n.

(** [range(start, stop)]: [start], [start + 1], ..., [stop - 1]; empty
    when [stop <= start]. *)
Definition range (start stop : Z) : list Z := seqZ start (stop - start).

(** [v == s] for a string constant [s]: only a [str] with the same
    characters equals it. *)
Definition eq_str (v : pyval) (s : string) : bool :=
  match v with
  | PyStr t => bool_decide (t = lit s)
  | _ => false
  end.

(** [v is None]. *)
Definition is_none (v : pyval) : bool :=
  match v with
  | PyNone => true
  | _ => false
  end.

(** [d.get(k)] on a dict with string keys and values of type [pyval]:
    the value, or [None] when the key is missing. *)
Definition dict_get (d : gmap string pyval) (k : string) : pyval :=
  default PyNone (d !! k).

End Py.

Import Py.

(* ===================================================================== *)
(** ** The device handle *)
(* ===================================================================== *)

Module Device.

(** Exception classes that occur: the three of py_agua_iot the adapter
    imports ([Error] under the name [AguaIOTError], [UnauthorizedError],
    [ConnectionError]) and Python built-ins. *)
Inductive exn_class : Type :=
| AguaIOTError
| UnauthorizedError
| ConnectionError
| ValueError
| TypeError
| AttributeError
| RuntimeError.

Global Instance exn_class_eq_dec : EqDecision exn_class.
Proof. solve_decision. Defined.

Record exn : Type := Exn { exn_cls : exn_class; exn_msg : string }.

(** The fields the adapter reads.  [None] in an optional field is
    Python's [None]. *)
Record handle : Type := Handle {
  id_device : string;
  name : string;
  name_product : string;
  air_temperature : option Q;
  water_temperature : option Q;
  gas_temperature : option Q;
  set_air_temperature : option Q;
  set_water_temperature : option Q;
  status : Z;
  status_translated : string;
  alarms : string;
  real_power : Z;
  set_power : Z;
  min_power : Z;
  max_power : Z;
  min_temp : Q;
  max_temp : Q
}.

(** What the client library does on a call: the exception it raises, if
    any, and the handle as the call leaves it.  The library's module is
    not among the sources, so its behaviour is a parameter of the adapter:
    every theorem below holds for every [client]. *)
Definition effect : Type := handle -> option exn * handle.

Record client : Type := Client {
  update : effect;                          (* device.update() *)
  turn_on : effect;                         (* device.turn_on() *)
  turn_off : effect;                        (* device.turn_off() *)
  assign_set_air_temperature : pyval -> effect;   (* device.set_air_temperature = v *)
  assign_set_water_temperature : pyval -> effect; (* device.set_water_temperature = v *)
  assign_set_power : Z -> effect            (* device.set_power = n *)
}.

(** The calls the adapter can make on a handle, as recorded in a trace. *)
Inductive call : Type :=
| Update
| TurnOn
| TurnOff
| AssignSetAirTemperature (v : pyval)
| AssignSetWaterTemperature (v : pyval)
| AssignSetPower (n : Z).

Definition perform (lib : client) (c : call) : effect :=
  match c with
  | Update => update lib
  | TurnOn => turn_on lib
  | TurnOff => turn_off lib
  | AssignSetAirTemperature v => assign_set_air_temperature lib v
  | AssignSetWaterTemperature v => assign_set_water_temperature lib v
  | AssignSetPower n => assign_set_power lib n
  end.

End Device.

(* ===================================================================== *)
(** ** Exceptions, log, trace: the monad of the adapter's methods *)
(* ===================================================================== *)

Module Runtime.
Import Device.

(** Modelled from the spec: the class hierarchy of py_agua_iot, whose
    module is not among the sources.  The spec names an authorization
    error, a connectivity error and "a generic base error":
    [UnauthorizedError] and [ConnectionError] derive from [AguaIOTError].
    [bases c] lists [c] and the classes it derives from, below
    [Exception]. *)
Definition bases (c : exn_class) : list exn_class :=
  match c with
  | UnauthorizedError => [UnauthorizedError; AguaIOTError]
  | ConnectionError => [ConnectionError; AguaIOTError]
  | c => [c]
  end.

(** [isinstance(e, c)]. *)
Definition isinstance (e : exn) (c : exn_class) : bool :=
  bool_decide (c ∈ bases (exn_cls e)).

(** An argument of a logging call, and a record of [_LOGGER.error]. *)
Inductive log_arg : Type :=
| ArgStr (s : string)
| ArgExn (e : exn).

Record log_record : Type := LogError { fmt : string; args : list log_arg }.

(** The state a method runs in: the handle [self._device], the calls made
    on it so far and the records logged so far (oldest first). *)
Record world : Type := World {
  device : handle;
  calls : list call;
  logged : list log_record
}.

Inductive outcome (A : Type) : Type :=
| Returned (a : A)
| Raised (e : exn).
Global Arguments Returned {A} a.
Global Arguments Raised {A} e.

Definition py (A : Type) : Type := world -> outcome A * world.

Definition ret {A} (a : A) : py A := fun w => (Returned a, w).

Definition raise {A} (e : exn) : py A := fun w => (Raised e, w).

Definition bind {A B} (m : py A) (k : A -> py B) : py B :=
  fun w =>
    match m w with
    | (Returned a, w') => k a w'
    | (Raised e, w') => (Raised e, w')
    end.

(** Read [self._device]. *)
Definition self_device : py handle := fun w => (Returned (device w), w).

(** Make a call on the handle: it is added to the trace, the handle
    becomes what the library leaves, and the library's exception, if any,
    is raised. *)
Definition invoke (lib : client) (c : call) : py unit :=
  fun w =>
    let '(r, h') := perform lib c (device w) in
    let w' := {| device := h'; calls := calls w ++ [c]; logged := logged w |} in
    match r with
    | None => (Returned tt, w')
    | Some e => (Raised e, w')
    end.

(** [_LOGGER.error(fmt, *args)]. *)
Definition logger_error (f : string) (a : list log_arg) : py unit :=
  fun w =>
    (Returned tt,
     {| device := device w; calls := calls w;
        logged := logged w ++ [LogError f a] |}).

(** [try: body / except (c1, ...) as err: h1 err / except ...]: the first
    clause one of whose classes the exception is an instance of handles
    it; with no such clause the exception goes on. *)
Definition handler (A : Type) : Type := list exn_class * (exn -> py A).

Definition catches {A} (e : exn) (h : handler A) : bool :=
  existsb (isinstance e) (fst h).

Definition try_except {A} (body : py A) (clauses : list (handler A)) : py A :=
  fun w =>
    match body w with
    | (Returned a, w') => (Returned a, w')
    | (Raised e, w') =>
        match find (catches e) clauses with
        | Some h => snd h e w'
        | None => (Raised e, w')
        end
    end.

End Runtime.

Declare Scope py_scope.
Delimit Scope py_scope with py.
Notation "x <- m ;; k" := (Runtime.bind m (fun x => k))
  (at level 100, m at next level, right associativity) : py_scope.
Notation "m ;; k" := (Runtime.bind m (fun _ => k))
  (at level 100, right associativity) : py_scope.

(* ===================================================================== *)
(** ** Constants of the host framework *)
(* ===================================================================== *)

(** The constants of homeassistant the adapter imports and the claims
    involve, with the values Home Assistant gives them. *)
Module HA.
Definition ATTR_TEMPERATURE : string := "temperature".
Definition HVAC_MODE_HEAT : string := "heat".
Definition HVAC_MODE_OFF : string := "off".
Definition CURRENT_HVAC_IDLE : string := "idle".
End HA.

(* ===================================================================== *)
(** ** The adapter: class AguaIOTHeatingDevice *)
(* ===================================================================== *)

Module AguaIOTHeatingDevice.
Import Device Runtime HA.
Local Open Scope py_scope.

(** *** Properties: reads of [self._device] *)

Definition unique_id (d : handle) : string := id_device d.

Definition name (d : handle) : string := Device.name d.

Definition min_temp (d : handle) : Q := Device.min_temp d.

Definition max_temp (d : handle) : Q := Device.max_temp d.

Definition current_temperature (d : handle) : option Q :=
  let temp := air_temperature d in
  match temp with
  | None => water_temperature d
  | Some _ => temp
  end.

Definition target_temperature (d : handle) : option Q :=
  let set_temp := set_air_temperature d in
  match set_temp with
  | None => set_water_temperature d
  | Some _ => set_temp
  end.

Definition hvac_mode (d : handle) : string :=
  if negb (bool_decide (status d ∈ [0; 6])) then HVAC_MODE_HEAT
  else HVAC_MODE_OFF.

Definition hvac_modes : list string := [HVAC_MODE_HEAT; HVAC_MODE_OFF].

Definition fan_mode (d : handle) : string := Py.str (set_power d).

(** The loop appends [str(x)] for each [x] of the range in turn. *)
Definition fan_modes (d : handle) : list string :=
  fold_left (fun fan_modes x => fan_modes ++ [Py.str x])
            (Py.range (min_power d) (max_power d + 1)) [].

Section hvac_action.
(** The table of const.py, which is not among the sources: a dict from
    translated status to running state, taken as a parameter. *)
Context (CURRENT_HVAC_MAP_AGUA_HEAT : gmap string string).

(** [k in d] *)
Definition contains (k : string) : bool :=
  bool_decide (is_Some (CURRENT_HVAC_MAP_AGUA_HEAT !! k)).

(** The result of [d.get(k)] is [None] (Python's) on a missing key,
    hence the [option]. *)
Definition hvac_action (d : handle) : option string :=
  if contains (status_translated d)
  then CURRENT_HVAC_MAP_AGUA_HEAT !! status_translated d
  else Some CURRENT_HVAC_IDLE.
End hvac_action.

(** *** Methods *)

(** [v.isdigit()]: [str], [bytes] and [bytearray] have the method; on any
    other value the attribute lookup raises. *)
Definition call_isdigit (v : pyval) : py bool :=
  match v with
  | PyStr s => ret (Py.isdigit s)
  | PyBytes b | PyByteArray b => ret (Py.bytes_isdigit b)
  | _ => raise (Exn AttributeError
                  ("'" +:+ Py.type_name v +:+ "' object has no attribute 'isdigit'"))
  end.

(** [int(v)].  The message of the [ValueError] ends, in Python, with the
    repr of the literal, which is left out here. *)
Definition call_int (v : pyval) : py Z :=
  match v with
  | PyStr s =>
      match Py.int s with
      | Some n => ret n
      | None => raise (Exn ValueError "invalid literal for int() with base 10")
      end
  | PyBytes b | PyByteArray b =>
      match Py.bytes_int b with
      | Some n => ret n
      | None => raise (Exn ValueError "invalid literal for int() with base 10")
      end
  | PyInt z => ret z
  | PyBool b => ret (Z.b2z b)
  | PyFloat q => ret (Z.quot (Qnum q) (Z.pos (Qden q)))
  | PyNone => raise (Exn TypeError "int() argument must be a string, a bytes-like object or a real number, not 'NoneType'")
  end.

Section methods.
Context (lib : client).

Definition turn_off : py unit :=
  try_except
    (invoke lib TurnOff)
    [ ([AguaIOTError], fun err =>
         logger_error "Failed to turn off device, error: %s" [ArgExn err]) ].

Definition turn_on : py unit :=
  try_except
    (invoke lib TurnOn)
    [ ([AguaIOTError], fun err =>
         logger_error "Failed to turn on device, error: %s" [ArgExn err]) ].

Definition set_temperature (kwargs : gmap string pyval) : py unit :=
  let temperature := Py.dict_get kwargs ATTR_TEMPERATURE in
  if Py.is_none temperature then ret tt
  else
    try_except
      (d <- self_device ;;
       match air_temperature d with
       | Some _ => invoke lib (AssignSetAirTemperature temperature)
       | None =>
           d <- self_device ;;
           match water_temperature d with
           | Some _ => invoke lib (AssignSetWaterTemperature temperature)
           | None => ret tt
           end
       end)
      [ ([ValueError; AguaIOTError], fun err =>
           logger_error "Failed to set temperature, error: %s" [ArgExn err]) ].

Definition set_fan_mode (fan_mode : pyval) : py unit :=
  skip <- (if Py.is_none fan_mode then ret true
           else (b <- call_isdigit fan_mode ;; ret (negb b))) ;;
  if (skip : bool) then ret tt
  else
    try_except
      (n <- call_int fan_mode ;;
       invoke lib (AssignSetPower n))
      [ ([AguaIOTError], fun err =>
           logger_error "Failed to set fan mode, error: %s" [ArgExn err]) ].

Definition set_hvac_mode (hvac_mode : pyval) : py unit :=
  if Py.eq_str hvac_mode HVAC_MODE_OFF then turn_off
  else if Py.eq_str hvac_mode HVAC_MODE_HEAT then turn_on
  else ret tt.

(** The [try] statement either returns from a handler ([Some b]) or
    falls through ([None]) to the final [return True]. *)
Definition update : py bool :=
  early <- try_except
    (invoke lib Update ;; ret None)
    [ ([UnauthorizedError], fun _ =>
         d <- self_device ;;
         logger_error "Wrong credentials for device %s (%s)"
                      [ArgStr (name d); ArgStr (id_device d)] ;;
         ret (Some false));
      ([ConnectionError], fun _ =>
         logger_error "Connection to Agua IOT not possible" [] ;;
         ret (Some false));
      ([AguaIOTError], fun err =>
         d <- self_device ;;
         logger_error "Failed to update %s (%s), error: %s"
                      [ArgStr (name d); ArgStr (id_device d); ArgExn err] ;;
         ret (Some false)) ] ;;
  match early with
  | Some b => ret b
  | None => ret true
  end.

(** The adapter's operations as the host framework calls them, and the
    value each call gives back: [None] for a command, a boolean for
    [update]. *)
Inductive operation : Type :=
| OpTurnOn
| OpTurnOff
| OpSetTemperature (kwargs : gmap string pyval)
| OpSetFanMode (fan_mode : pyval)
| OpSetHvacMode (hvac_mode : pyval)
| OpUpdate.

Definition run (op : operation) : py pyval :=
  match op with
  | OpTurnOn => turn_on ;; ret PyNone
  | OpTurnOff => turn_off ;; ret PyNone
  | OpSetTemperature kwargs => set_temperature kwargs ;; ret PyNone
  | OpSetFanMode v => set_fan_mode v ;; ret PyNone
  | OpSetHvacMode v => set_hvac_mode v ;; ret PyNone
  | OpUpdate => b <- update ;; ret (PyBool b)
  end.
End methods.

End AguaIOTHeatingDevice.

(* ===================================================================== *)
(** ** Sample handles and client libraries *)
(* ===================================================================== *)

Module Sample.
Import Device Runtime.

(** An air stove: air sensor live, no water circuit, power levels 1..3. *)
Definition stove : handle :=
  {| id_device := "dev-1"; name := "Stove"; name_product := "P1";
     air_temperature := Some (41 # 2)%Q; water_temperature := None;
     gas_temperature := Some (120 # 1)%Q;
     set_air_temperature := Some (22 # 1)%Q; set_water_temperature := None;
     status := 3; status_translated := "WORK"; alarms := "";
     real_power := 2; set_power := 2; min_power := 1; max_power := 3;
     min_temp := (7 # 1)%Q; max_temp := (40 # 1)%Q |}.

Definition with_sensors (air water : option Q) (d : handle) : handle :=
  {| id_device := id_device d; name := name d; name_product := name_product d;
     air_temperature := air; water_temperature := water;
     gas_temperature := gas_temperature d;
     set_air_temperature := set_air_temperature d;
     set_water_temperature := set_water_temperature d;
     status := status d; status_translated := status_translated d;
     alarms := alarms d; real_power := real_power d;
     set_power := set_power d; min_power := min_power d;
     max_power := max_power d; min_temp := min_temp d;
     max_temp := max_temp d |}.

(** A hydro stove: only the water sensor reads, 21.5 degrees. *)
Definition boiler : handle := with_sensors None (Some (43 # 2)%Q) stove.

(** Both sensors live. *)
Definition combined : handle :=
  with_sensors (Some (41 # 2)%Q) (Some (43 # 2)%Q) stove.

(** No sensor reads. *)
Definition blind : handle := with_sensors None None stove.

Definition start (d : handle) : world :=
  {| device := d; calls := []; logged := [] |}.

Definition succeed : effect := fun d => (None, d).
Definition fail (e : exn) : effect := fun d => (Some e, d).

(** A library every call of which succeeds and leaves the handle as it is
    (the cached fields change on the next successful refresh only). *)
Definition steady : client :=
  {| update := succeed; turn_on := succeed; turn_off := succeed;
     assign_set_air_temperature := fun _ => succeed;
     assign_set_water_temperature := fun _ => succeed;
     assign_set_power := fun _ => succeed |}.

(** A library every call of which raises [e]. *)
Definition failing (e : exn) : client :=
  {| update := fail e; turn_on := fail e; turn_off := fail e;
     assign_set_air_temperature := fun _ => fail e;
     assign_set_water_temperature := fun _ => fail e;
     assign_set_power := fun _ => fail e |}.

(** A library whose power setter rejects a level outside
    [min_power .. max_power] with [ValueError]; all else succeeds. *)
Definition ranged : client :=
  {| update := succeed; turn_on := succeed; turn_off := succeed;
     assign_set_air_temperature := fun _ => succeed;
     assign_set_water_temperature := fun _ => succeed;
     assign_set_power := fun n d =>
       if (min_power d <=? n) && (n <=? max_power d) then (None, d)
       else (Some (Exn ValueError "Power value out of range"), d) |}.

Definition unauthorized : exn := Exn UnauthorizedError "401".
Definition unreachable : exn := Exn ConnectionError "timed out".
Definition vendor_fault : exn := Exn AguaIOTError "Error while trying to turn off device".
Definition bad_value : exn := Exn ValueError "Power value out of range".
Definition crash : exn := Exn RuntimeError "unexpected".

Definition kw_temperature (v : pyval) : gmap string pyval :=
  {[ HA.ATTR_TEMPERATURE := v ]}.

Definition action_table : gmap string string :=
  {[ "WORK" := "heating"; "OFF" := "off"; "CLEANING" := "idle" ]}.

Definition with_setpoints (air water : option Q) (power : Z) (d : handle) : handle :=
  {| id_device := id_device d; name := name d; name_product := name_product d;
     air_temperature := air_temperature d;
     water_temperature := water_temperature d;
     gas_temperature := gas_temperature d;
     set_air_temperature := air; set_water_temperature := water;
     status := status d; status_translated := status_translated d;
     alarms := alarms d; real_power := real_power d;
     set_power := power; min_power := min_power d;
     max_power := max_power d; min_temp := min_temp d;
     max_temp := max_temp d |}.

(** A number as a setpoint holds it; anything else is no number. *)
Definition as_number (v : pyval) : option Q :=
  match v with
  | PyFloat q => Some q
  | PyInt z => Some (inject_Z z)
  | _ => None
  end.

(** A library whose setters keep what is assigned: the handle shows the
    new setpoint at once.  A temperature that is no number is rejected
    with [ValueError]. *)
Definition storing : client :=
  {| update := succeed; turn_on := succeed; turn_off := succeed;
     assign_set_air_temperature := fun v d =>
       match as_number v with
       | Some q => (None, with_setpoints (Some q) (set_water_temperature d) (set_power d) d)
       | None => (Some (Exn ValueError "Unknown temperature value"), d)
       end;
     assign_set_water_temperature := fun v d =>
       match as_number v with
       | Some q => (None, with_setpoints (set_air_temperature d) (Some q) (set_power d) d)
       | None => (Some (Exn ValueError "Unknown temperature value"), d)
       end;
     assign_set_power := fun n d =>
       (None, with_setpoints (set_air_temperature d) (set_water_temperature d) n d) |}.

(** A hydro stove that still carries an air setpoint. *)
Definition boiler_with_air_setpoint : handle :=
  with_setpoints (Some (22 # 1)%Q) (Some (60 # 1)%Q) 2 boiler.

(** A hydro stove with a water setpoint only. *)
Definition boiler_water_only : handle :=
  with_setpoints None (Some (60 # 1)%Q) 2 boiler.

(** A handle whose power levels start below zero. *)
Definition odd_levels : handle :=
  {| id_device := "dev-2"; name := "Odd"; name_product := "P2";
     air_temperature := Some (20 # 1)%Q; water_temperature := None;
     gas_temperature := None;
     set_air_temperature := Some (20 # 1)%Q; set_water_temperature := None;
     status := 0; status_translated := "OFF"; alarms := "";
     real_power := 0; set_power := 0; min_power := -1; max_power := 1;
     min_temp := (7 # 1)%Q; max_temp := (40 # 1)%Q |}.

End Sample.

(* ===================================================================== *)
(** ** The specification's vocabulary *)
(* ===================================================================== *)

(** Notions the specification uses and the code does not define; each
    follows the specification's words and is compared with the code in
    the theorems. *)
Module Stated.
Import Device Runtime AguaIOTHeatingDevice.

(** A plain numeral: one or more of the characters 0 to 9. *)
Definition decimal_chars : list ascii :=
  ["0"; "1"; "2"; "3"; "4"; "5"; "6"; "7"; "8"; "9"]%char.

Definition numeral (s : string) : Prop :=
  s <> "" /\ Forall (fun c => c ∈ decimal_chars) (list_ascii_of_string s).

(** The number a plain numeral denotes, read from the most significant
    digit on; a character counts for its distance from the character 0. *)
Definition shift (n : Z) (c : ascii) : Z :=
  10 * n + (Z.of_nat (nat_of_ascii c) - 48).

Definition numeral_value (s : string) : Z :=
  fold_left shift (list_ascii_of_string s) 0.

(** "A non-negative integer string": a [str] of one or more decimal
    digits, of whatever script, or a [bytes] or [bytearray] that is a plain
    numeral. *)
Definition decimal_digit (c : Z) : Prop := is_Some (Py.decimal_value c).




(** The three failure kinds of a refresh. *)
Inductive failure : Type :=
| Authorization
| Connectivity
| Generic.

Definition failure_of (e : exn) : option failure :=
  match exn_cls e with
  | UnauthorizedError => Some Authorization
  | ConnectionError => Some Connectivity
  | AguaIOTError => Some Generic
  | _ => None
  end.

(** The record [update] logs for each failure kind. *)
Definition update_record (k : failure) (d : handle) (e : exn) : log_record :=
  match k with
  | Authorization =>
      LogError "Wrong credentials for device %s (%s)"
               [ArgStr (Device.name d); ArgStr (id_device d)]
  | Connectivity =>
      LogError "Connection to Agua IOT not possible" []
  | Generic =>
      LogError "Failed to update %s (%s), error: %s"
               [ArgStr (Device.name d); ArgStr (id_device d); ArgExn e]
  end.

(** The world after one call [c] on the handle that left it as [d']. *)
Definition called (w : world) (c : call) (d' : handle) : world :=
  {| device := d'; calls := calls w ++ [c]; logged := logged w |}.

(** The world after one more log record. *)
Definition noted (w : world) (r : log_record) : world :=
  {| device := device w; calls := calls w; logged := logged w ++ [r] |}.

(** A vendor error: an instance of the library's base class. *)
Definition vendor_error (e : exn) : bool := isinstance e AguaIOTError.

(** The errors an operation is built to absorb: vendor errors, and in
    [set_temperature] also [ValueError]. *)
Definition absorbed (op : operation) (e : exn) : bool :=
  vendor_error e
  || match op with
     | OpSetTemperature _ => isinstance e ValueError
     | _ => false
     end.

(** What an operation gives back once it has absorbed an error. *)
Definition failed_result (op : operation) : pyval :=
  match op with
  | OpUpdate => PyBool false
  | _ => PyNone
  end.

(** "Every externally raised error ... is caught ...; no exception ever
    crosses the adapter boundary": whenever an operation calls the handle
    and the call raises, the operation still returns. *)
Definition no_error_crosses : Prop :=
  forall (lib : client) (op : operation) (w : world)
         (c : call) (e : exn) (d' : handle),
    calls (snd (run lib op w)) = calls w ++ [c] ->
    perform lib c (device w) = (Some e, d') ->
    exists v w', run lib op w = (Returned v, w').

End Stated.

(* ===================================================================== *)
(** ** What the operations leave behind *)
(* ===================================================================== *)

(** Read off the methods: the value an operation gives back when its call
    on the handle went through, and the message a command logs when it
    absorbs an error. *)
Module Observed.
Import Device Runtime HA AguaIOTHeatingDevice.

Definition success_result (op : operation) : pyval :=
  match op with
  | OpUpdate => PyBool true
  | _ => PyNone
  end.

Definition turn_on_message : string := "Failed to turn on device, error: %s".
Definition turn_off_message : string := "Failed to turn off device, error: %s".

(** [set_hvac_mode] logs through [turn_off] or [turn_on]; with another
    mode it calls neither, and the message is never used. *)
Definition failure_message (op : operation) : string :=
  match op with
  | OpTurnOn => turn_on_message
  | OpTurnOff => turn_off_message
  | OpSetTemperature _ => "Failed to set temperature, error: %s"
  | OpSetFanMode _ => "Failed to set fan mode, error: %s"
  | OpSetHvacMode v =>
      if Py.eq_str v HVAC_MODE_OFF then turn_off_message else turn_on_message
  | OpUpdate => "Failed to update %s (%s), error: %s"
  end.

End Observed.

(* ===================================================================== *)
(** ** Properties read from the handle *)
(* ===================================================================== *)

Import Device Runtime HA AguaIOTHeatingDevice.

(** Appending one element per item of a list, in turn, is a map. *)
Lemma fold_left_snoc_map {A B} (f : A -> B) (l : list A) (acc : list B) :
  fold_left (fun acc x => acc ++ [f x]) l acc = acc ++ map f l.
Proof.
  revert acc. induction l as [|x l IH]; intros acc; simpl.
  - by rewrite app_nil_r.
  - rewrite IH. by rewrite <- app_assoc.
Qed.

Lemma fan_modes_map (d : handle) :
  fan_modes d = map Py.str (seqZ (min_power d) (max_power d - min_power d + 1)).
Proof.
  unfold fan_modes, Py.range. rewrite fold_left_snoc_map. simpl.
  f_equal. f_equal. lia.
Qed.

(** C2: [current_temperature] is the air reading whenever there is one,
    whatever the water reading is, and the water reading when the air
    reading is [None]. *)
Theorem current_temperature_prefers_air (d : handle) :
  (forall t, air_temperature d = Some t -> current_temperature d = Some t) /\
  (air_temperature d = None -> current_temperature d = water_temperature d).
Proof.
  unfold current_temperature. split.
  - intros t Ht. rewrite Ht. reflexivity.
  - intros Hnone. rewrite Hnone. reflexivity.
Qed.

Lemma current_temperature_prefers_air_witness :
  current_temperature Sample.stove = Some (41 # 2)%Q /\
  current_temperature Sample.combined = Some (41 # 2)%Q /\
  current_temperature Sample.boiler = Some (43 # 2)%Q.
Proof.
  split; [|split].
  - apply (proj1 (current_temperature_prefers_air Sample.stove)). reflexivity.
  - apply (proj1 (current_temperature_prefers_air Sample.combined)). reflexivity.
  - rewrite (proj2 (current_temperature_prefers_air Sample.boiler)); reflexivity.
Defined.

(** C5: [hvac_mode] is the off mode exactly when the status is 0 or 6, and
    the heat mode for every other status. *)
Theorem hvac_mode_off_iff_status_0_or_6 (d : handle) :
  (hvac_mode d = HVAC_MODE_OFF <-> status d = 0 \/ status d = 6) /\
  (hvac_mode d = HVAC_MODE_HEAT <-> ~ (status d = 0 \/ status d = 6)).
Proof.
  unfold hvac_mode.
  assert (status d ∈ [0; 6] <-> status d = 0 \/ status d = 6) as Hin.
  { rewrite !elem_of_cons, elem_of_nil. tauto. }
  case_bool_decide; simpl; (split; split; intros ?; try done; tauto).
Qed.

(** C8: [fan_modes] is the list of the decimal strings of the integers
    from [min_power] to [max_power] inclusive, in increasing order; for
    [min_power = 1] and [max_power = 3] it is ["1"; "2"; "3"]. *)
Theorem fan_modes_enumerates_power_levels (d : handle) :
  length (fan_modes d) = Z.to_nat (max_power d - min_power d + 1) /\
  (forall i : nat,
      min_power d + Z.of_nat i <= max_power d ->
      fan_modes d !! i = Some (Py.str (min_power d + Z.of_nat i))) /\
  (forall s, s ∈ fan_modes d <->
             exists k, min_power d <= k <= max_power d /\ s = Py.str k) /\
  (min_power d = 1 -> max_power d = 3 -> fan_modes d = ["1"; "2"; "3"]).
Proof.
  rewrite fan_modes_map. repeat split.
  - by rewrite length_map, length_seqZ.
  - intros i Hi. rewrite list_lookup_fmap, lookup_seqZ_lt by lia. reflexivity.
  - intros Hs. apply list_elem_of_fmap in Hs as (k & -> & Hk).
    apply elem_of_seqZ in Hk. exists k. split; [lia | reflexivity].
  - intros (k & Hk & ->). apply list_elem_of_fmap. exists k.
    split; [reflexivity|]. apply elem_of_seqZ. lia.
  - intros -> ->. reflexivity.
Qed.

Lemma fan_modes_enumerates_power_levels_witness :
  fan_modes Sample.stove = ["1"; "2"; "3"].
Proof.
  apply (proj2 (proj2 (proj2 (fan_modes_enumerates_power_levels Sample.stove))));
    reflexivity.
Defined.

(** C9: [hvac_action] depends on the handle through its translated status
    only: it is the table's entry for that status when there is one, and
    idle when the table has none. *)
Theorem hvac_action_follows_table (table : gmap string string) (d : handle) :
  (forall a, table !! status_translated d = Some a ->
             hvac_action table d = Some a) /\
  (table !! status_translated d = None ->
   hvac_action table d = Some CURRENT_HVAC_IDLE) /\
  (forall d', status_translated d' = status_translated d ->
              hvac_action table d' = hvac_action table d).
Proof.
  unfold hvac_action, contains. repeat split.
  - intros a Ha. rewrite Ha. rewrite bool_decide_eq_true_2 by eauto. reflexivity.
  - intros Hn. rewrite Hn. rewrite bool_decide_eq_false_2; [reflexivity|].
    intros [a Ha]. discriminate.
  - intros d' ->. reflexivity.
Qed.

Lemma hvac_action_follows_table_witness :
  hvac_action Sample.action_table Sample.stove = Some "heating" /\
  hvac_action (delete "WORK" Sample.action_table) Sample.stove = Some "idle".
Proof.
  split.
  - apply (proj1 (hvac_action_follows_table Sample.action_table Sample.stove)).
    reflexivity.
  - apply (proj1 (proj2 (hvac_action_follows_table
                           (delete "WORK" Sample.action_table) Sample.stove))).
    reflexivity.
Defined.

(* ===================================================================== *)
(** ** Facts about [str.isdigit] and [int] *)
(* ===================================================================== *)

Module PyFacts.
Import Stated.

(** *** The tables *)

Lemma in_ranges_spec (rs : list (Z * Z)) (c : Z) :
  Py.in_ranges rs c = true <-> exists r, In r rs /\ fst r <= c <= snd r.
Proof.
  unfold Py.in_ranges. rewrite existsb_exists. split.
  - intros (r & Hr & Hc). exists r. split; [done|]. lia.
  - intros (r & Hr & Hc). exists r. split; [done|]. lia.
Qed.

Lemma apart_spec (rs1 rs2 : list (Z * Z)) (c : Z) :
  Py.apart rs1 rs2 = true ->
  Py.in_ranges rs1 c = true -> Py.in_ranges rs2 c = false.
Proof.
  unfold Py.apart. rewrite forallb_forall. intros Hap H1.
  apply in_ranges_spec in H1 as (r1 & Hr1 & Hc1).
  destruct (Py.in_ranges rs2 c) eqn:H2; [|done].
  apply in_ranges_spec in H2 as (r2 & Hr2 & Hc2).
  specialize (Hap r1 Hr1). rewrite forallb_forall in Hap.
  specialize (Hap r2 Hr2). lia.
Qed.

Lemma in_ranges_lower (rs : list (Z * Z)) (c lo : Z) :
  forallb (fun r => lo <=? fst r) rs = true ->
  Py.in_ranges rs c = true -> lo <= c.
Proof.
  rewrite forallb_forall. intros Hlo (r & Hr & Hc)%in_ranges_spec.
  specialize (Hlo r Hr). lia.
Qed.

Lemma decimal_value_spec (c d : Z) :
  Py.decimal_value c = Some d ->
  exists z, In z Py.decimal_zeros /\ z <= c <= z + 9 /\ d = c - z.
Proof.
  unfold Py.decimal_value.
  destruct (find _ Py.decimal_zeros) as [z|] eqn:E; [|done].
  intros [= <-]. apply find_some in E as [Hin Hz].
  exists z. split; [done|]. lia.
Qed.

Lemma decimal_value_range (c d : Z) :
  Py.decimal_value c = Some d -> 0 <= d <= 9.
Proof. intros (z & _ & Hz & ->)%decimal_value_spec. lia. Qed.

Lemma is_decimal_value (c : Z) :
  Py.is_decimal c = true <-> is_Some (Py.decimal_value c).
Proof.
  unfold Py.is_decimal.
  destruct (Py.decimal_value c); split; try done; by eauto.
Qed.

Lemma decimal_in_ranges (c : Z) :
  Py.is_decimal c = true -> Py.in_ranges Py.decimal_ranges c = true.
Proof.
  intros [d (z & Hin & Hz & _)%decimal_value_spec]%is_decimal_value.
  apply in_ranges_spec. exists (z, z + 9). split; [|done].
  unfold Py.decimal_ranges. apply in_map_iff. eauto.
Qed.

(** The characters 0 to 9 are decimal digits, each of its own value. *)
Lemma ascii_digit_decimal (c : Z) :
  Py.is_ascii_digit c = true -> Py.decimal_value c = Some (c - 48).
Proof.
  unfold Py.is_ascii_digit. intros H.
  assert ((48 <=? c) && (c <=? 48 + 9) = true) as Hfirst by lia.
  unfold Py.decimal_value, Py.decimal_zeros. cbn [find].
  by rewrite Hfirst.
Qed.

(** Below 127 they are the only decimal digits. *)
Lemma decimal_below_127 (c : Z) :
  c < 127 -> Py.is_decimal c = true -> Py.is_ascii_digit c = true.
Proof.
  intros Hc [d (z & Hin & Hz & _)%decimal_value_spec]%is_decimal_value.
  assert (forallb (fun z => (z =? 48) || (1632 <=? z)) Py.decimal_zeros = true)
    as Hzeros by reflexivity.
  rewrite forallb_forall in Hzeros. specialize (Hzeros z Hin).
  unfold Py.is_ascii_digit. lia.
Qed.

(** No decimal digit beyond ASCII is white space. *)
Lemma decimal_not_wide_space (c : Z) :
  Py.is_decimal c = true -> Py.in_ranges Py.wide_spaces c = false.
Proof.
  intros H%decimal_in_ranges. revert H. by apply apart_spec.
Qed.

(** The other digits lie beyond ASCII and none is white space. *)
Lemma other_digit_wide (c : Z) :
  Py.in_ranges Py.other_digits c = true ->
  127 <= c /\ Py.in_ranges Py.wide_spaces c = false.
Proof.
  intros H. split.
  - revert H. by apply in_ranges_lower.
  - revert H. by apply apart_spec.
Qed.

Lemma ascii_digit_plain (c : Z) :
  Py.is_ascii_digit c = true ->
  Py.is_space c = false /\ (c =? 43) = false /\ (c =? 45) = false /\
  (c =? 95) = false /\ c < 127.
Proof. unfold Py.is_ascii_digit, Py.is_space. lia. Qed.

(** *** The parser on ASCII digits *)

Lemma scan_ascii_digits (l : list Z) (acc : Z) :
  forallb Py.is_ascii_digit l = true ->
  Py.scan_digits acc false l
  = Some (fold_left (fun n c => 10 * n + (c - 48)) l acc, []).
Proof.
  revert acc. induction l as [|c l IH]; intros acc H; simpl in *.
  - reflexivity.
  - apply andb_true_iff in H as [Hc Hl]. rewrite Hc. by apply IH.
Qed.

Lemma fold_ascii_nonneg (l : list Z) (acc : Z) :
  forallb Py.is_ascii_digit l = true -> 0 <= acc ->
  0 <= fold_left (fun n c => 10 * n + (c - 48)) l acc.
Proof.
  revert acc. induction l as [|c l IH]; intros acc H Hacc; simpl in *.
  - done.
  - apply andb_true_iff in H as [Hc Hl]. apply IH; [done|].
    unfold Py.is_ascii_digit in Hc. lia.
Qed.

(** A buffer of one or more ASCII digits parses to the number they
    denote. *)
Lemma long_from_ascii_digits (c : Z) (l : list Z) :
  forallb Py.is_ascii_digit (c :: l) = true ->
  Py.long_from_string (c :: l)
  = Some (fold_left (fun n c => 10 * n + (c - 48)) (c :: l) 0).
Proof.
  intros H.
  assert (Py.is_ascii_digit c = true) as Hc
    by (simpl in H; by apply andb_true_iff in H as [? ?]).
  destruct (ascii_digit_plain c Hc) as (Hsp & Hpl & Hmi & _ & _).
  unfold Py.long_from_string. cbn [Py.skip_space]. rewrite Hsp.
  cbn [Py.split_sign]. rewrite Hpl, Hmi, Hc.
  rewrite (scan_ascii_digits (c :: l) 0 H). cbn [Py.skip_space].
  f_equal. lia.
Qed.

Lemma to_ascii_below (l : list Z) :
  forallb (fun c => c <? 127) l = true -> Py.to_ascii l = l.
Proof.
  induction l as [|c l IH]; intros H; simpl in *; [done|].
  apply andb_true_iff in H as [Hc Hl]. rewrite Hc. by rewrite IH.
Qed.

Lemma fold_left_fmap {A B C} (f : A -> B -> A) (g : C -> B) (l : list C) (a : A) :
  fold_left f (map g l) a = fold_left (fun a x => f a (g x)) l a.
Proof. revert a. induction l as [|x l IH]; intros a; simpl; [done | apply IH]. Qed.


(** *** Plain numerals, as [str] and as [bytes] *)

(** The ten characters of a plain numeral are the ASCII digits. *)
Lemma decimal_chars_code (c : ascii) :
  c ∈ decimal_chars <-> Py.is_ascii_digit (Py.code c) = true.
Proof.
  assert (bool_decide (c ∈ decimal_chars) = Py.is_ascii_digit (Py.code c)) as <-.
  { destruct c as [[] [] [] [] [] [] [] []]; vm_compute; reflexivity. }
  symmetry. apply bool_decide_eq_true.
Qed.

Lemma numeral_lit (s : string) :
  numeral s <->
  exists c l, Py.lit s = c :: l /\ forallb Py.is_ascii_digit (c :: l) = true.
Proof.
  unfold numeral, Py.lit. split.
  - intros [Hne H]. destruct s as [|a s]; [done|]. simpl in *.
    eexists _, _. split; [reflexivity|].
    apply Forall_cons in H as [Ha H]. apply andb_true_iff. split.
    + by apply decimal_chars_code.
    + apply forallb_forall. intros x (y & <- & Hy)%in_map_iff.
      apply decimal_chars_code. rewrite Forall_forall in H.
      apply H. by apply list_elem_of_In.
  - intros (c & l & Hl & H). split.
    + intros ->. discriminate.
    + apply Forall_forall. intros a Ha. apply decimal_chars_code.
      rewrite <- Hl in H. rewrite forallb_forall in H. apply H.
      apply in_map. by apply list_elem_of_In.
Qed.

Lemma numeral_value_lit (s : string) :
  numeral_value s = fold_left (fun n c => 10 * n + (c - 48)) (Py.lit s) 0.
Proof. unfold numeral_value, Py.lit. by rewrite fold_left_fmap. Qed.

Lemma ascii_digits_below (l : list Z) :
  forallb Py.is_ascii_digit l = true -> forallb (fun c => c <? 127) l = true.
Proof.
  rewrite !forallb_forall. intros H c Hc. specialize (H c Hc).
  unfold Py.is_ascii_digit in H. lia.
Qed.

Lemma ascii_digits_isdigit (l : list Z) :
  forallb Py.is_ascii_digit l = true -> forallb Py.is_digit l = true.
Proof.
  rewrite !forallb_forall. intros H c Hc. specialize (H c Hc).
  unfold Py.is_digit, Py.is_decimal. by rewrite (ascii_digit_decimal c H).
Qed.

(** On a plain numeral, [isdigit] holds and [int] gives the number it
    denotes. *)
Lemma numeral_int (s : string) :
  numeral s ->
  Py.isdigit s = true /\ Py.int s = Some (numeral_value s) /\
  0 <= numeral_value s.
Proof.
  intros (c & l & Hl & H)%numeral_lit. rewrite numeral_value_lit, Hl.
  repeat split.
  - unfold Py.isdigit. by apply ascii_digits_isdigit.
  - unfold Py.int. rewrite (to_ascii_below _ (ascii_digits_below _ H)).
    by apply long_from_ascii_digits.
  - by apply fold_ascii_nonneg.
Qed.



(** *** Digits of any script *)

(** What [int] makes of a character [isdigit] accepts: an ASCII digit when
    it is a decimal digit, the end of the buffer otherwise. *)
Lemma to_ascii_digit (c : Z) (s : list Z) :
  Py.is_digit c = true ->
  (exists d, Py.decimal_value c = Some d /\
             Py.is_ascii_digit (48 + d) = true /\
             Py.to_ascii (c :: s) = (48 + d) :: Py.to_ascii s) \/
  (Py.decimal_value c = None /\ Py.to_ascii (c :: s) = [63]).
Proof.
  unfold Py.is_digit. intros H.
  destruct (Py.decimal_value c) as [d|] eqn:Hd.
  - left. exists d. pose proof (decimal_value_range c d Hd) as Hr.
    assert (Py.is_decimal c = true) as Hdec
      by (unfold Py.is_decimal; by rewrite Hd).
    split; [done|]. split; [unfold Py.is_ascii_digit; lia|].
    cbn [Py.to_ascii]. destruct (c <? 127) eqn:Hc.
    + assert (Py.is_ascii_digit c = true) as Ha
        by (apply decimal_below_127; [lia | done]).
      rewrite (ascii_digit_decimal c Ha) in Hd. injection Hd as <-.
      f_equal. lia.
    + by rewrite (decimal_not_wide_space c Hdec), Hd.
  - right. split; [done|].
    assert (Py.is_decimal c = false) as Hdec
      by (unfold Py.is_decimal; by rewrite Hd).
    rewrite Hdec in H. simpl in H.
    destruct (other_digit_wide c H) as [Hc Hsp].
    cbn [Py.to_ascii]. rewrite Hsp, Hd.
    by destruct (Z.ltb_spec c 127); [lia|].
Qed.




(** On characters [isdigit] accepts that are not all decimal, the scan
    stops at the end mark. *)
Lemma scan_to_ascii_mark (s : list Z) (acc : Z) :
  forallb Py.is_digit s = true -> ~ Forall decimal_digit s ->
  exists n, Py.scan_digits acc false (Py.to_ascii s) = Some (n, [63]).
Proof.
  revert acc. induction s as [|c s IH]; intros acc Hd Hn.
  - destruct Hn. constructor.
  - simpl in Hd. apply andb_true_iff in Hd as [Hc Hs].
    destruct (to_ascii_digit c s Hc) as [(d & Hd & Ha & ->) | [Hd ->]].
    + cbn [Py.scan_digits]. rewrite Ha. apply IH; [done|].
      intros Hall. apply Hn. constructor; [|done]. by exists d.
    + by eexists.
Qed.

(** A [str] that [isdigit] accepts and that is not made of decimal
    digits alone makes [int] raise. *)
Lemma isdigit_not_decimal_int (s : list Z) :
  Py.isdigit s = true -> ~ Forall decimal_digit s -> Py.int s = None.
Proof.
  unfold Py.isdigit. intros Hd Hn. destruct s as [|c s]; [done|].
  destruct (scan_to_ascii_mark (c :: s) 0 Hd Hn) as [n Hscan].
  unfold Py.int, Py.long_from_string.
  assert (Py.is_digit c = true) as Hc
    by (simpl in Hd; by apply andb_true_iff in Hd as [? ?]).
  destruct (to_ascii_digit c s Hc) as [(d & _ & Ha & E) | [_ E]].
  - rewrite E in *.
    destruct (ascii_digit_plain _ Ha) as (Hsp & Hpl & Hmi & _ & _).
    cbn [Py.skip_space]. rewrite Hsp. cbn [Py.split_sign].
    rewrite Hpl, Hmi, Ha, Hscan. reflexivity.
  - rewrite E. reflexivity.
Qed.


End PyFacts.

(* ===================================================================== *)
(** ** Commands and refresh *)
(* ===================================================================== *)

Import Stated.

Ltac py_unfold :=
  unfold bind, ret, raise, try_except, invoke, logger_error, self_device,
    catches, isinstance, called, noted in *.

(** What a guarded call does, by the library's answer. *)
Lemma invoke_ok (lib : client) (c : call) (w : world) (d' : handle) :
  perform lib c (device w) = (None, d') ->
  invoke lib c w = (Returned tt, called w c d').
Proof. intros H. unfold invoke. rewrite H. reflexivity. Qed.

Lemma invoke_raises (lib : client) (c : call) (w : world) (e : exn) (d' : handle) :
  perform lib c (device w) = (Some e, d') ->
  invoke lib c w = (Raised e, called w c d').
Proof. intros H. unfold invoke. rewrite H. reflexivity. Qed.

Lemma invoke_trace (lib : client) (c : call) (w : world) :
  calls (snd (invoke lib c w)) = calls w ++ [c] /\
  device (snd (invoke lib c w)) = snd (perform lib c (device w)) /\
  logged (snd (invoke lib c w)) = logged w.
Proof.
  unfold invoke. destruct (perform lib c (device w)) as [[e|] d']; done.
Qed.

(** A [try] with one clause around one call: the trace and the handle
    are those of the call, whatever the clause logs. *)
Lemma guarded_invoke_trace (lib : client) (c : call) (cls : list exn_class)
      (msg : string) (w : world) :
  let m := try_except (invoke lib c)
             [ (cls, fun err => logger_error msg [ArgExn err]) ] in
  calls (snd (m w)) = calls w ++ [c] /\
  device (snd (m w)) = snd (perform lib c (device w)).
Proof.
  simpl. py_unfold.
  destruct (perform lib c (device w)) as [[e|] d']; simpl; [|done].
  destruct (existsb _ cls); simpl; done.
Qed.

(** C1: [update] calls the handle's refresh and returns a boolean: [true]
    when the refresh raises nothing; [false], after logging the record of
    the failure kind, when it raises an authorization error, a connectivity
    error or another vendor error.  The three records have different
    messages, and the three kinds are exactly the vendor errors. *)
Theorem update_reports_refresh
        (lib : client) (w : world) (r : option exn) (d' : handle) :
  Device.update lib (device w) = (r, d') ->
  (r = None -> update lib w = (Returned true, called w Update d')) /\
  (forall e k, r = Some e -> failure_of e = Some k ->
     update lib w =
       (Returned false, noted (called w Update d') (update_record k d' e))) /\
  (forall k1 k2 d1 d2 e1 e2,
     fmt (update_record k1 d1 e1) = fmt (update_record k2 d2 e2) -> k1 = k2) /\
  (forall e, vendor_error e = true <-> is_Some (failure_of e)).
Proof.
  intros Hr. repeat split.
  - intros ->. unfold update. py_unfold. simpl. rewrite Hr. reflexivity.
  - intros e k -> Hk. unfold update. py_unfold. simpl. rewrite Hr.
    unfold failure_of in Hk. destruct e as [cls msg]. simpl in *.
    destruct cls; inversion Hk; subst; reflexivity.
  - intros k1 k2 d1 d2 e1 e2. destruct k1, k2; simpl; congruence.
  - unfold vendor_error, isinstance, failure_of.
    destruct e as [[] msg]; simpl; intros H; by eauto.
  - unfold vendor_error, isinstance, failure_of.
    destruct e as [[] msg]; simpl; intros [k Hk]; done.
Qed.

Lemma update_reports_refresh_witness :
  update Sample.steady (Sample.start Sample.stove)
    = (Returned true, called (Sample.start Sample.stove) Update Sample.stove) /\
  update (Sample.failing Sample.unauthorized) (Sample.start Sample.stove)
    = (Returned false,
       noted (called (Sample.start Sample.stove) Update Sample.stove)
             (LogError "Wrong credentials for device %s (%s)"
                       [ArgStr "Stove"; ArgStr "dev-1"])) /\
  update (Sample.failing Sample.unreachable) (Sample.start Sample.stove)
    = (Returned false,
       noted (called (Sample.start Sample.stove) Update Sample.stove)
             (LogError "Connection to Agua IOT not possible" [])) /\
  update (Sample.failing Sample.vendor_fault) (Sample.start Sample.stove)
    = (Returned false,
       noted (called (Sample.start Sample.stove) Update Sample.stove)
             (LogError "Failed to update %s (%s), error: %s"
                       [ArgStr "Stove"; ArgStr "dev-1";
                        ArgExn Sample.vendor_fault])).
Proof.
  split; [|split; [|split]].
  - apply (proj1 (update_reports_refresh Sample.steady
                    (Sample.start Sample.stove) None Sample.stove eq_refl)).
    reflexivity.
  - apply (proj1 (proj2 (update_reports_refresh
                    (Sample.failing Sample.unauthorized)
                    (Sample.start Sample.stove) (Some Sample.unauthorized)
                    Sample.stove eq_refl))
             Sample.unauthorized Authorization); reflexivity.
  - apply (proj1 (proj2 (update_reports_refresh
                    (Sample.failing Sample.unreachable)
                    (Sample.start Sample.stove) (Some Sample.unreachable)
                    Sample.stove eq_refl))
             Sample.unreachable Connectivity); reflexivity.
  - apply (proj1 (proj2 (update_reports_refresh
                    (Sample.failing Sample.vendor_fault)
                    (Sample.start Sample.stove) (Some Sample.vendor_fault)
                    Sample.stove eq_refl))
             Sample.vendor_fault Generic); reflexivity.
Defined.

Lemma turn_off_trace (lib : client) (w : world) :
  calls (snd (turn_off lib w)) = calls w ++ [TurnOff] /\
  device (snd (turn_off lib w)) = snd (Device.turn_off lib (device w)).
Proof. apply guarded_invoke_trace. Qed.

Lemma turn_on_trace (lib : client) (w : world) :
  calls (snd (turn_on lib w)) = calls w ++ [TurnOn] /\
  device (snd (turn_on lib w)) = snd (Device.turn_on lib (device w)).
Proof. apply guarded_invoke_trace. Qed.

Lemma eq_str_true (v : pyval) (s : string) :
  Py.eq_str v s = true <-> v = PyStr s.
Proof.
  destruct v; simpl; try (split; intros; congruence).
  rewrite bool_decide_eq_true. split; congruence.
Qed.

Lemma eq_str_false (v : pyval) (s : string) :
  Py.eq_str v s = false <-> v <> PyStr s.
Proof.
  rewrite <- eq_str_true. destruct (Py.eq_str v s); split; congruence.
Qed.

(** C6: [set_hvac_mode] runs [turn_off] (one [turn_off] call on the
    handle) for the off mode, [turn_on] (one [turn_on] call) for the heat
    mode, and does nothing at all for any other value. *)
Theorem set_hvac_mode_dispatches (lib : client) (mode : pyval) (w : world) :
  (mode = PyStr HVAC_MODE_OFF ->
   set_hvac_mode lib mode w = turn_off lib w /\
   calls (snd (set_hvac_mode lib mode w)) = calls w ++ [TurnOff]) /\
  (mode = PyStr HVAC_MODE_HEAT ->
   set_hvac_mode lib mode w = turn_on lib w /\
   calls (snd (set_hvac_mode lib mode w)) = calls w ++ [TurnOn]) /\
  (mode <> PyStr HVAC_MODE_OFF -> mode <> PyStr HVAC_MODE_HEAT ->
   set_hvac_mode lib mode w = (Returned tt, w)).
Proof.
  unfold set_hvac_mode. repeat split.
  - subst mode. reflexivity.
  - subst mode. apply turn_off_trace.
  - subst mode. reflexivity.
  - subst mode. apply turn_on_trace.
  - intros Hoff Hheat.
    apply eq_str_false in Hoff. apply eq_str_false in Hheat.
    rewrite Hoff, Hheat. reflexivity.
Qed.

Lemma set_hvac_mode_dispatches_witness :
  calls (snd (set_hvac_mode Sample.steady (PyStr "off")
                            (Sample.start Sample.stove))) = [TurnOff] /\
  calls (snd (set_hvac_mode Sample.steady (PyStr "heat")
                            (Sample.start Sample.stove))) = [TurnOn] /\
  set_hvac_mode Sample.steady (PyStr "cool") (Sample.start Sample.stove)
    = (Returned tt, Sample.start Sample.stove) /\
  set_hvac_mode Sample.steady PyNone (Sample.start Sample.stove)
    = (Returned tt, Sample.start Sample.stove).
Proof.
  split; [|split; [|split]].
  - apply (proj1 (set_hvac_mode_dispatches Sample.steady (PyStr "off")
                    (Sample.start Sample.stove))). reflexivity.
  - apply (proj1 (proj2 (set_hvac_mode_dispatches Sample.steady (PyStr "heat")
                    (Sample.start Sample.stove)))). reflexivity.
  - apply (proj2 (proj2 (set_hvac_mode_dispatches Sample.steady (PyStr "cool")
                    (Sample.start Sample.stove)))); discriminate.
  - apply (proj2 (proj2 (set_hvac_mode_dispatches Sample.steady PyNone
                    (Sample.start Sample.stove)))); discriminate.
Defined.

Lemma dict_get_present (kwargs : gmap string pyval) (k : string) (t : pyval) :
  kwargs !! k = Some t -> Py.dict_get kwargs k = t.
Proof. unfold Py.dict_get. by intros ->. Qed.

Lemma is_none_false (t : pyval) : t <> PyNone -> Py.is_none t = false.
Proof. by destruct t. Qed.

(** C7: [set_temperature] does nothing when no temperature is given (the
    key is missing or holds [None]); given one, it assigns it to
    [set_air_temperature] when the air reading is not [None], and to
    [set_water_temperature] when the air reading is [None] and the water
    reading is not.  In both cases that assignment is the only call. *)
Theorem set_temperature_targets_live_sensor
        (lib : client) (kwargs : gmap string pyval) (w : world) :
  (kwargs !! ATTR_TEMPERATURE = None \/
   kwargs !! ATTR_TEMPERATURE = Some PyNone ->
   set_temperature lib kwargs w = (Returned tt, w)) /\
  (forall t, kwargs !! ATTR_TEMPERATURE = Some t -> t <> PyNone ->
     air_temperature (device w) <> None ->
     calls (snd (set_temperature lib kwargs w))
       = calls w ++ [AssignSetAirTemperature t] /\
     device (snd (set_temperature lib kwargs w))
       = snd (assign_set_air_temperature lib t (device w))) /\
  (forall t, kwargs !! ATTR_TEMPERATURE = Some t -> t <> PyNone ->
     air_temperature (device w) = None ->
     water_temperature (device w) <> None ->
     calls (snd (set_temperature lib kwargs w))
       = calls w ++ [AssignSetWaterTemperature t] /\
     device (snd (set_temperature lib kwargs w))
       = snd (assign_set_water_temperature lib t (device w))).
Proof.
  unfold set_temperature. split; [|split].
  - unfold Py.dict_get. intros [-> | ->]; reflexivity.
  - intros t Ht Hnn Hair. rewrite (dict_get_present _ _ _ Ht).
    rewrite (is_none_false _ Hnn). py_unfold. simpl.
    destruct (air_temperature (device w)) as [a|]; [|done].
    destruct (assign_set_air_temperature lib t (device w)) as [[e|] d'] eqn:E;
      simpl; [|done].
    destruct (bool_decide _ || (bool_decide _ || false)); simpl; done.
  - intros t Ht Hnn Hair Hwater. rewrite (dict_get_present _ _ _ Ht).
    rewrite (is_none_false _ Hnn). py_unfold. simpl. rewrite Hair.
    destruct (water_temperature (device w)) as [a|]; [|done].
    destruct (assign_set_water_temperature lib t (device w)) as [[e|] d'] eqn:E;
      simpl; [|done].
    destruct (bool_decide _ || (bool_decide _ || false)); simpl; done.
Qed.

Lemma set_temperature_targets_live_sensor_witness :
  set_temperature Sample.steady ∅ (Sample.start Sample.combined)
    = (Returned tt, Sample.start Sample.combined) /\
  calls (snd (set_temperature Sample.steady
                (Sample.kw_temperature (PyFloat (43 # 2)%Q))
                (Sample.start Sample.combined)))
    = [AssignSetAirTemperature (PyFloat (43 # 2)%Q)] /\
  calls (snd (set_temperature Sample.steady
                (Sample.kw_temperature (PyFloat (43 # 2)%Q))
                (Sample.start Sample.boiler)))
    = [AssignSetWaterTemperature (PyFloat (43 # 2)%Q)].
Proof.
  split; [|split].
  - apply (proj1 (set_temperature_targets_live_sensor Sample.steady ∅
                    (Sample.start Sample.combined))).
    left. reflexivity.
  - apply (proj1 (proj2 (set_temperature_targets_live_sensor Sample.steady
                    (Sample.kw_temperature (PyFloat (43 # 2)%Q))
                    (Sample.start Sample.combined)))
             (PyFloat (43 # 2)%Q)); [reflexivity | discriminate | discriminate].
  - apply (proj2 (proj2 (set_temperature_targets_live_sensor Sample.steady
                    (Sample.kw_temperature (PyFloat (43 # 2)%Q))
                    (Sample.start Sample.boiler)))
             (PyFloat (43 # 2)%Q));
      [reflexivity | discriminate | reflexivity | discriminate].
Defined.

(** C10: on a handle whose air and water readings are both [None],
    [set_temperature] with a temperature given makes no call, logs
    nothing and leaves the handle as it is. *)
Theorem set_temperature_without_sensor
        (lib : client) (kwargs : gmap string pyval) (w : world) (t : pyval) :
  kwargs !! ATTR_TEMPERATURE = Some t -> t <> PyNone ->
  air_temperature (device w) = None ->
  water_temperature (device w) = None ->
  set_temperature lib kwargs w = (Returned tt, w).
Proof.
  intros Ht Hnn Hair Hwater. unfold set_temperature.
  rewrite (dict_get_present _ _ _ Ht), (is_none_false _ Hnn).
  py_unfold. simpl. rewrite Hair, Hwater. reflexivity.
Qed.

Lemma set_temperature_without_sensor_witness :
  set_temperature (Sample.failing Sample.crash)
                  (Sample.kw_temperature (PyFloat (43 # 2)%Q))
                  (Sample.start Sample.blind)
    = (Returned tt, Sample.start Sample.blind).
Proof.
  apply (set_temperature_without_sensor (Sample.failing Sample.crash)
           (Sample.kw_temperature (PyFloat (43 # 2)%Q))
           (Sample.start Sample.blind) (PyFloat (43 # 2)%Q));
    [reflexivity | discriminate | reflexivity | reflexivity].
Defined.



(* ===================================================================== *)
(** ** Errors at the adapter boundary *)
(* ===================================================================== *)

(** A clause whose classes the raised exception is an instance of turns
    the failed call into one log record and a normal return. *)
Lemma guarded_invoke_absorbs (lib : client) (c : call) (cls : list exn_class)
      (msg : string) (w : world) (e : exn) (d' : handle) :
  perform lib c (device w) = (Some e, d') ->
  existsb (isinstance e) cls = true ->
  try_except (invoke lib c) [ (cls, fun err => logger_error msg [ArgExn err]) ] w
    = (Returned tt, noted (called w c d') (LogError msg [ArgExn e])).
Proof.
  intros Hp Hcls. unfold try_except. rewrite (invoke_raises _ _ _ _ _ Hp).
  simpl. unfold catches. simpl. rewrite Hcls. reflexivity.
Qed.

Lemma then_none_returned {A} (m : py A) (w w' : world) (a : A) :
  m w = (Returned a, w') -> (m ;; ret PyNone)%py w = (Returned PyNone, w').
Proof. intros H. unfold bind, ret. by rewrite H. Qed.

Lemma then_none_world {A} (m : py A) (w : world) :
  snd ((m ;; ret PyNone)%py w) = snd (m w).
Proof. unfold bind, ret. by destruct (m w) as [[a|e] w']. Qed.

Lemma trace_last_inv (l : list call) (c c' : call) :
  l ++ [c] = l ++ [c'] -> c = c'.
Proof. intros H. apply app_inv_head in H. congruence. Qed.

Lemma trace_grew (l : list call) (c : call) : l <> l ++ [c].
Proof.
  intros H. apply (f_equal length) in H. rewrite length_app in H.
  simpl in H. lia.
Qed.

Lemma vendor_error_in (e : exn) (cls : list exn_class) :
  vendor_error e = true -> AguaIOTError ∈ cls ->
  existsb (isinstance e) cls = true.
Proof.
  intros He Hin. apply existsb_exists. exists AguaIOTError.
  split; [by apply list_elem_of_In | exact He].
Qed.

Lemma update_absorbs (lib : client) (w : world) (e : exn) (d' : handle) :
  Device.update lib (device w) = (Some e, d') ->
  vendor_error e = true ->
  exists r, update lib w = (Returned false, noted (called w Update d') r).
Proof.
  intros Hp He. unfold update. py_unfold. simpl. rewrite Hp.
  unfold vendor_error, isinstance in He.
  destruct e as [[] msg]; simpl in *; try discriminate; eauto.
Qed.

(** [set_temperature] and [set_fan_mode] flattened: which guarded call, if
    any, each comes down to. *)
Lemma set_temperature_cases (lib : client) (kwargs : gmap string pyval) (w : world) :
  set_temperature lib kwargs w =
    let t := Py.dict_get kwargs ATTR_TEMPERATURE in
    let clause : handler unit :=
      ([ValueError; AguaIOTError], fun err =>
         logger_error "Failed to set temperature, error: %s" [ArgExn err]) in
    if Py.is_none t then (Returned tt, w)
    else match air_temperature (device w), water_temperature (device w) with
         | Some _, _ => try_except (invoke lib (AssignSetAirTemperature t)) [clause] w
         | None, Some _ => try_except (invoke lib (AssignSetWaterTemperature t)) [clause] w
         | None, None => (Returned tt, w)
         end.
Proof.
  unfold set_temperature. simpl.
  destruct (Py.is_none _); [reflexivity|].
  unfold try_except, bind, self_device.
  destruct (air_temperature (device w)), (water_temperature (device w));
    reflexivity.
Qed.

Lemma set_fan_mode_cases (lib : client) (v : pyval) (w : world) :
  set_fan_mode lib v w =
    let clause : handler unit :=
      ([AguaIOTError], fun err =>
         logger_error "Failed to set fan mode, error: %s" [ArgExn err]) in
    let parsed (digits : bool) (number : option Z) :=
      if digits then
        match number with
        | Some n => try_except (invoke lib (AssignSetPower n)) [clause] w
        | None => (Raised (Exn ValueError "invalid literal for int() with base 10"), w)
        end
      else (Returned tt, w) in
    match v with
    | PyNone => (Returned tt, w)
    | PyStr s => parsed (Py.isdigit s) (Py.int s)
    | PyBytes b | PyByteArray b => parsed (Py.bytes_isdigit b) (Py.bytes_int b)
    | _ => (Raised (Exn AttributeError
                      ("'" +:+ Py.type_name v +:+ "' object has no attribute 'isdigit'")),
            w)
    end.
Proof.
  unfold set_fan_mode, call_isdigit, call_int.
  destruct v as [|b|z|q|s|y|y]; try reflexivity;
    unfold bind, ret, try_except; simpl.
  - destruct (Py.isdigit s); simpl; [|reflexivity].
    destruct (Py.int s); reflexivity.
  - destruct (Py.bytes_isdigit y); simpl; [|reflexivity].
    destruct (Py.bytes_int y); reflexivity.
  - destruct (Py.bytes_isdigit y); simpl; [|reflexivity].
    destruct (Py.bytes_int y); reflexivity.
Qed.

(** C4, as the code has it: when an operation calls the handle and the
    call raises a vendor error (an instance of the library's base error
    class), or raises [ValueError] inside [set_temperature], the operation
    catches it where the call is made, logs one record and returns: [False]
    from [update], [None] from a command.  The handle stays as the failed
    call left it. *)
Theorem absorbed_errors_do_not_cross
        (lib : client) (op : operation) (w : world)
        (c : call) (e : exn) (d' : handle) :
  calls (snd (run lib op w)) = calls w ++ [c] ->
  perform lib c (device w) = (Some e, d') ->
  absorbed op e = true ->
  exists r, run lib op w = (Returned (failed_result op), noted (called w c d') r).
Proof.
  intros Hcalls Hp Ha. unfold absorbed in Ha.
  destruct op as [| |kwargs|v|v|]; unfold run in *;
    rewrite ?then_none_world in Hcalls; simpl failed_result.
  - (* turn_on *)
    rewrite orb_false_r in Ha.
    rewrite (proj1 (turn_on_trace lib w)) in Hcalls.
    apply trace_last_inv in Hcalls as <-.
    eexists. eapply then_none_returned.
    apply guarded_invoke_absorbs; [exact Hp|].
    apply vendor_error_in; [done | set_solver].
  - (* turn_off *)
    rewrite orb_false_r in Ha.
    rewrite (proj1 (turn_off_trace lib w)) in Hcalls.
    apply trace_last_inv in Hcalls as <-.
    eexists. eapply then_none_returned.
    apply guarded_invoke_absorbs; [exact Hp|].
    apply vendor_error_in; [done | set_solver].
  - (* set_temperature *)
    assert (existsb (isinstance e) [ValueError; AguaIOTError] = true) as Hcls.
    { simpl. unfold vendor_error in Ha.
      destruct (isinstance e AguaIOTError), (isinstance e ValueError); done. }
    rewrite set_temperature_cases in Hcalls. simpl in Hcalls.
    eexists. eapply then_none_returned.
    rewrite set_temperature_cases. simpl.
    destruct (Py.is_none _); [by apply trace_grew in Hcalls|].
    destruct (air_temperature (device w)), (water_temperature (device w));
      try (by apply trace_grew in Hcalls);
      rewrite (proj1 (guarded_invoke_trace lib _ _ _ w)) in Hcalls;
      apply trace_last_inv in Hcalls as <-;
      by apply guarded_invoke_absorbs.
  - (* set_fan_mode *)
    rewrite orb_false_r in Ha.
    rewrite set_fan_mode_cases in Hcalls. simpl in Hcalls.
    eexists. eapply then_none_returned.
    rewrite set_fan_mode_cases. simpl.
    assert (forall (digits : bool) (number : option Z),
      calls (snd (if digits then
                    match number with
                    | Some n =>
                        try_except (invoke lib (AssignSetPower n))
                          [ ([AguaIOTError], fun err =>
                               logger_error "Failed to set fan mode, error: %s"
                                            [ArgExn err]) ] w
                    | None =>
                        (Raised (Exn ValueError
                                   "invalid literal for int() with base 10"), w)
                    end
                  else (Returned tt, w))) = calls w ++ [c] ->
      (if digits then
         match number with
         | Some n =>
             try_except (invoke lib (AssignSetPower n))
               [ ([AguaIOTError], fun err =>
                    logger_error "Failed to set fan mode, error: %s"
                                 [ArgExn err]) ] w
         | None =>
             (Raised (Exn ValueError "invalid literal for int() with base 10"), w)
         end
       else (Returned tt, w))
      = (Returned tt,
         noted (called w c d')
               (LogError "Failed to set fan mode, error: %s" [ArgExn e])))
      as Hparsed.
    { intros [|] [n|] H; try (by apply trace_grew in H).
      rewrite (proj1 (guarded_invoke_trace lib _ _ _ w)) in H.
      apply trace_last_inv in H as <-.
      apply guarded_invoke_absorbs; [exact Hp|].
      apply vendor_error_in; [done | set_solver]. }
    destruct v as [|b|z|q|s|y|y];
      try (by apply trace_grew in Hcalls); by apply Hparsed.
  - (* set_hvac_mode *)
    rewrite orb_false_r in Ha.
    unfold set_hvac_mode in *.
    destruct (Py.eq_str v HVAC_MODE_OFF).
    { rewrite (proj1 (turn_off_trace lib w)) in Hcalls.
      apply trace_last_inv in Hcalls as <-.
      eexists. eapply then_none_returned.
      apply guarded_invoke_absorbs; [exact Hp|].
      apply vendor_error_in; [done | set_solver]. }
    destruct (Py.eq_str v HVAC_MODE_HEAT).
    { rewrite (proj1 (turn_on_trace lib w)) in Hcalls.
      apply trace_last_inv in Hcalls as <-.
      eexists. eapply then_none_returned.
      apply guarded_invoke_absorbs; [exact Hp|].
      apply vendor_error_in; [done | set_solver]. }
    by apply trace_grew in Hcalls.
  - (* update *)
    rewrite orb_false_r in Ha.
    assert (c = Update) as ->.
    { revert Hcalls. unfold update. py_unfold. simpl.
      destruct (Device.update lib (device w)) as [[[[] msg]|] d0]; simpl;
        intros H; by apply trace_last_inv in H. }
    destruct (update_absorbs lib w e d' Hp Ha) as [r Hr].
    exists r. unfold bind, ret. rewrite Hr. reflexivity.
Qed.

Lemma absorbed_errors_do_not_cross_witness :
  (exists r,
     run (Sample.failing Sample.vendor_fault) OpTurnOff (Sample.start Sample.stove)
       = (Returned PyNone,
          noted (called (Sample.start Sample.stove) TurnOff Sample.stove) r)) /\
  (exists r,
     run (Sample.failing Sample.bad_value)
         (OpSetTemperature (Sample.kw_temperature (PyFloat (43 # 2)%Q)))
         (Sample.start Sample.boiler)
       = (Returned PyNone,
          noted (called (Sample.start Sample.boiler)
                        (AssignSetWaterTemperature (PyFloat (43 # 2)%Q))
                        Sample.boiler) r)) /\
  (exists r,
     run (Sample.failing Sample.unreachable) OpUpdate (Sample.start Sample.stove)
       = (Returned (PyBool false),
          noted (called (Sample.start Sample.stove) Update Sample.stove) r)).
Proof.
  split; [|split].
  - apply (absorbed_errors_do_not_cross
             (Sample.failing Sample.vendor_fault) OpTurnOff
             (Sample.start Sample.stove) TurnOff Sample.vendor_fault
             Sample.stove); reflexivity.
  - apply (absorbed_errors_do_not_cross
             (Sample.failing Sample.bad_value)
             (OpSetTemperature (Sample.kw_temperature (PyFloat (43 # 2)%Q)))
             (Sample.start Sample.boiler)
             (AssignSetWaterTemperature (PyFloat (43 # 2)%Q))
             Sample.bad_value Sample.boiler); reflexivity.
  - apply (absorbed_errors_do_not_cross
             (Sample.failing Sample.unreachable) OpUpdate
             (Sample.start Sample.stove) Update Sample.unreachable
             Sample.stove); reflexivity.
Defined.

(** C4 as stated fails: no method has a clause for an exception that is
    neither a vendor error nor a [ValueError].  When the handle's
    [turn_off] raises a [RuntimeError], the adapter's [turn_off] lets it
    through, with nothing logged. *)
Lemma runtime_error_crosses_turn_off :
  run (Sample.failing Sample.crash) OpTurnOff (Sample.start Sample.stove)
    = (Raised Sample.crash,
       called (Sample.start Sample.stove) TurnOff Sample.stove) /\
  ~ no_error_crosses.
Proof.
  split; [reflexivity|].
  intros H.
  destruct (H (Sample.failing Sample.crash) OpTurnOff
              (Sample.start Sample.stove) TurnOff Sample.crash Sample.stove
              eq_refl eq_refl) as (v & w' & Hrun).
  discriminate Hrun.
Qed.

(** The two setter paths differ on [ValueError]: [set_temperature] has a
    clause for it, [set_fan_mode] has not.  A power level the library
    rejects as out of range leaves [set_fan_mode] as an exception, while
    the same rejection of a temperature is logged and absorbed. *)
Lemma value_error_leaves_set_fan_mode :
  set_fan_mode Sample.ranged (PyStr "9") (Sample.start Sample.stove)
    = (Raised (Exn ValueError "Power value out of range"),
       called (Sample.start Sample.stove) (AssignSetPower 9) Sample.stove) /\
  set_temperature (Sample.failing Sample.bad_value)
                  (Sample.kw_temperature (PyFloat (99 # 1)%Q))
                  (Sample.start Sample.stove)
    = (Returned tt,
       noted (called (Sample.start Sample.stove)
                     (AssignSetAirTemperature (PyFloat (99 # 1)%Q)) Sample.stove)
             (LogError "Failed to set temperature, error: %s"
                       [ArgExn Sample.bad_value])).
Proof. split; reflexivity. Qed.

(** A string of superscript digits passes [isdigit] and makes [int] raise:
    nothing is assigned, and the [ValueError] leaves [set_fan_mode]. *)
Lemma superscript_leaves_set_fan_mode :
  let two := String (ascii_of_nat 178) "" in
  Py.isdigit two = true /\ Py.int two = None /\
  set_fan_mode Sample.steady (PyStr two) (Sample.start Sample.stove)
    = (Raised (Exn ValueError "invalid literal for int() with base 10"),
       Sample.start Sample.stove).
Proof. repeat split. Qed.

(* ===================================================================== *)
(** ** [str] and [int] agree: the listed fan modes can be set *)
(* ===================================================================== *)

Module StrFacts.

Lemma chars_app (s1 s2 : string) :
  list_ascii_of_string (s1 +:+ s2)
  = list_ascii_of_string s1 ++ list_ascii_of_string s2.
Proof. induction s1 as [|c s1 IH]; simpl; [done | by rewrite IH]. Qed.

Lemma chars_inj (s1 s2 : string) :
  list_ascii_of_string s1 = list_ascii_of_string s2 -> s1 = s2.
Proof.
  intros H. rewrite <- (string_of_list_ascii_of_string s1),
                    <- (string_of_list_ascii_of_string s2). by rewrite H.
Qed.

(** The digits are put in front of what is already there. *)
Lemma pretty_N_go_app (x : N) (s : string) :
  pretty_N_go x s = pretty_N_go x "" +:+ s.
Proof.
  revert s. induction (N.lt_wf_0 x) as [x _ IH]; intros s.
  destruct (decide (x = 0)%N) as [->|Hx].
  - by rewrite !pretty_N_go_0.
  - assert (0 < x)%N as Hpos by lia.
    assert (x `div` 10 < x)%N as Hlt by (apply N.div_lt; lia).
    rewrite (pretty_N_go_step x s), (pretty_N_go_step x "") by done.
    rewrite (IH _ Hlt (String _ s)), (IH _ Hlt (String _ "")).
    apply chars_inj. rewrite !chars_app. simpl.
    by rewrite <- app_assoc.
Qed.

Lemma pretty_N_char_decimal (d : N) :
  (d < 10)%N ->
  Py.is_ascii_digit (Py.code (pretty_N_char d)) = true /\
  Py.code (pretty_N_char d) - 48 = Z.of_N d.
Proof.
  intros Hd.
  assert (d ∈ [0; 1; 2; 3; 4; 5; 6; 7; 8; 9]%N) as Hin.
  { rewrite !elem_of_cons. lia. }
  rewrite !elem_of_cons, elem_of_nil in Hin.
  repeat (destruct Hin as [-> | Hin]; [by vm_compute|]). done.
Qed.

Lemma fold_shift_snoc (l : list ascii) (c : ascii) (acc : Z) :
  fold_left shift (l ++ [c]) acc
  = 10 * fold_left shift l acc + (Py.code c - 48).
Proof. by rewrite fold_left_app. Qed.

(** The digits [pretty] writes are ASCII digits and denote the number. *)
Lemma pretty_N_go_digits (x : N) :
  forallb (fun c => Py.is_ascii_digit (Py.code c))
          (list_ascii_of_string (pretty_N_go x "")) = true /\
  fold_left shift (list_ascii_of_string (pretty_N_go x "")) 0 = Z.of_N x.
Proof.
  induction (N.lt_wf_0 x) as [x _ IH].
  destruct (decide (x = 0)%N) as [->|Hx].
  - rewrite pretty_N_go_0. done.
  - assert (0 < x)%N as Hpos by lia.
    assert (x `div` 10 < x)%N as Hlt by (apply N.div_lt; lia).
    destruct (IH _ Hlt) as [IHd IHv].
    destruct (pretty_N_char_decimal (x `mod` 10)) as [Hc Hcv].
    { apply N.mod_lt. lia. }
    rewrite pretty_N_go_step, pretty_N_go_app, chars_app by done. simpl.
    split.
    + rewrite forallb_app, IHd. simpl. by rewrite Hc.
    + rewrite fold_shift_snoc, IHv, Hcv.
      rewrite (N.div_mod x 10) at 3 by lia. lia.
Qed.

(** [str] of a non-negative integer is a numeral that denotes it. *)
Lemma str_numeral (n : Z) :
  0 <= n -> Stated.numeral (Py.str n) /\ Stated.numeral_value (Py.str n) = n.
Proof.
  intros Hn. destruct n as [|p|p]; [| |lia].
  - split; [|reflexivity]. split; [discriminate|]. repeat constructor.
  - unfold Py.str, pretty, pretty_Z, pretty, pretty_positive, pretty, pretty_N.
    rewrite decide_False by lia.
    destruct (pretty_N_go_digits (N.pos p)) as [Hd Hv].
    split; [|exact Hv]. split.
    + intros E. rewrite E in Hv. simpl in Hv. lia.
    + apply Forall_forall. intros c Hc. apply PyFacts.decimal_chars_code.
      rewrite forallb_forall in Hd. apply Hd. by apply list_elem_of_In.
Qed.

(** So [int(str(n)) = n] for every non-negative [n]. *)
Lemma int_str (n : Z) : 0 <= n -> Py.int (Py.str n) = Some n.
Proof.
  intros Hn. destruct (str_numeral n Hn) as [Hnum Hval].
  destruct (PyFacts.numeral_int _ Hnum) as (_ & Hi & _). by rewrite Hi, Hval.
Qed.

End StrFacts.

(** X10: each fan mode the adapter lists, handed back to [set_fan_mode],
    assigns the power level it names (for a handle whose levels are not
    negative). *)
Lemma listed_fan_mode_is_set (lib : client) (d : handle) (w : world) (s : string) :
  0 <= min_power d ->
  s ∈ fan_modes d ->
  exists k, min_power d <= k <= max_power d /\ s = Py.str k /\
            calls (snd (set_fan_mode lib (PyStr s) w))
              = calls w ++ [AssignSetPower k].
Proof.
  intros Hmin Hs. rewrite fan_modes_map in Hs.
  apply list_elem_of_fmap in Hs as (k & -> & Hk). apply elem_of_seqZ in Hk.
  exists k. split; [lia|]. split; [reflexivity|].
  destruct (StrFacts.str_numeral k) as [Hnum Hval]; [lia|].
  destruct (PyFacts.numeral_int _ Hnum) as (Hd & Hi & _).
  rewrite set_fan_mode_cases. simpl. rewrite Hd, Hi, Hval.
  apply guarded_invoke_trace.
Qed.

(* ===================================================================== *)
(** ** Further properties read from the handle *)
(* ===================================================================== *)

(** X1: [target_temperature] is the air setpoint whenever there is one,
    the water setpoint otherwise, and [None] only when both setpoints
    are [None]. *)
Theorem target_temperature_prefers_air_setpoint (d : handle) :
  (forall t, set_air_temperature d = Some t -> target_temperature d = Some t) /\
  (set_air_temperature d = None ->
   target_temperature d = set_water_temperature d) /\
  (target_temperature d = None <->
   set_air_temperature d = None /\ set_water_temperature d = None).
Proof.
  unfold target_temperature.
  destruct (set_air_temperature d) as [a|], (set_water_temperature d) as [b|];
    repeat split; intros; try congruence; try tauto;
    match goal with H : _ /\ _ |- _ => destruct H; congruence end.
Qed.

Lemma target_temperature_prefers_air_setpoint_witness :
  target_temperature Sample.boiler_with_air_setpoint = Some (22 # 1)%Q /\
  target_temperature Sample.boiler_water_only = Some (60 # 1)%Q.
Proof.
  split.
  - apply (proj1 (target_temperature_prefers_air_setpoint
                    Sample.boiler_with_air_setpoint)). reflexivity.
  - rewrite (proj1 (proj2 (target_temperature_prefers_air_setpoint
                             Sample.boiler_water_only))); reflexivity.
Defined.

(** X2: the mode [hvac_mode] reports is always one of the two modes
    [hvac_modes] offers, and these two are different. *)
Theorem hvac_mode_is_offered (d : handle) :
  hvac_mode d ∈ hvac_modes /\ NoDup hvac_modes.
Proof.
  split.
  - unfold hvac_mode, hvac_modes.
    destruct (negb _); rewrite !elem_of_cons; auto.
  - unfold hvac_modes. apply NoDup_cons. split.
    + rewrite elem_of_cons, elem_of_nil. intros [H|[]]. discriminate H.
    + apply NoDup_singleton.
Qed.

Lemma str_inj (a b : Z) : Py.str a = Py.str b -> a = b.
Proof. unfold Py.str. apply pretty_Z_inj. Qed.

(** X3: [fan_modes] never lists a mode twice, and it is empty exactly when
    [max_power] is below [min_power]. *)
Theorem fan_modes_distinct (d : handle) :
  NoDup (fan_modes d) /\
  (fan_modes d = [] <-> max_power d < min_power d).
Proof.
  rewrite fan_modes_map. split.
  - apply NoDup_fmap_2; [|apply NoDup_seqZ]. intros a b. apply str_inj.
  - split.
    + intros H. apply (f_equal length) in H.
      rewrite length_map, length_seqZ in H. simpl in H. lia.
    + intros H. rewrite seqZ_nil by lia. reflexivity.
Qed.

(** X4: the current fan mode is among the listed ones exactly when
    [set_power] lies between [min_power] and [max_power]. *)
Theorem fan_mode_listed_iff_in_range (d : handle) :
  fan_mode d ∈ fan_modes d <-> min_power d <= set_power d <= max_power d.
Proof.
  rewrite fan_modes_map, list_elem_of_fmap. unfold fan_mode. split.
  - intros (k & Hk & Hin). apply str_inj in Hk as <-.
    apply elem_of_seqZ in Hin. lia.
  - intros H. exists (set_power d). split; [reflexivity|].
    apply elem_of_seqZ. lia.
Qed.

(** X5: [hvac_action] never gives [None]: it is the table's entry for the
    translated status, with idle as the default. *)
Theorem hvac_action_is_lookup_with_default
        (table : gmap string string) (d : handle) :
  hvac_action table d
  = Some (default CURRENT_HVAC_IDLE (table !! status_translated d)).
Proof.
  unfold hvac_action, contains.
  case_bool_decide as Hin.
  - destruct Hin as [a ->]. reflexivity.
  - destruct (table !! status_translated d) as [a|]; [|reflexivity].
    destruct Hin. eauto.
Qed.

(* ===================================================================== *)
(** ** Every outcome of an operation *)
(* ===================================================================== *)

Import Observed.

(** A [try] with one clause around one call, by the library's answer. *)
Lemma guarded_invoke_outcome (lib : client) (c : call) (cls : list exn_class)
      (msg : string) (w : world) :
  try_except (invoke lib c) [ (cls, fun err => logger_error msg [ArgExn err]) ] w
  = match perform lib c (device w) with
    | (None, d') => (Returned tt, called w c d')
    | (Some e, d') =>
        if existsb (isinstance e) cls
        then (Returned tt, noted (called w c d') (LogError msg [ArgExn e]))
        else (Raised e, called w c d')
    end.
Proof.
  unfold try_except, invoke, catches.
  destruct (perform lib c (device w)) as [[e|] d']; simpl; [|reflexivity].
  destruct (existsb (isinstance e) cls); reflexivity.
Qed.

Lemma update_outcome (lib : client) (w : world) :
  update lib w
  = match Device.update lib (device w) with
    | (None, d') => (Returned true, called w Update d')
    | (Some e, d') =>
        match failure_of e with
        | Some k => (Returned false,
                     noted (called w Update d') (update_record k d' e))
        | None => (Raised e, called w Update d')
        end
    end.
Proof.
  unfold update. py_unfold. simpl.
  destruct (Device.update lib (device w)) as [[[cls msg]|] d']; [|reflexivity].
  destruct cls; reflexivity.
Qed.

Lemma failure_of_absorbed (e : exn) :
  absorbed OpUpdate e = bool_decide (is_Some (failure_of e)).
Proof.
  unfold absorbed, vendor_error, isinstance, failure_of.
  destruct e as [[] msg]; reflexivity.
Qed.

(** A command either leaves the world alone or comes down to one guarded
    call whose clause absorbs exactly the errors [absorbed] names and logs
    the command's message. *)
Lemma command_shape (lib : client) (op : operation) (w : world) :
  op <> OpUpdate ->
  snd (run lib op w) = w \/
  exists c cls,
    (forall e, existsb (isinstance e) cls = absorbed op e) /\
    run lib op w
    = (try_except (invoke lib c)
         [ (cls, fun err => logger_error (failure_message op) [ArgExn err]) ] ;;
       ret PyNone)%py w.
Proof.
  intros Hop. destruct op as [| |kwargs|v|v|]; [| | | | |done].
  - right. exists TurnOn, [AguaIOTError]. split; [|reflexivity].
    intros e. unfold absorbed. simpl. reflexivity.
  - right. exists TurnOff, [AguaIOTError]. split; [|reflexivity].
    intros e. unfold absorbed. simpl. reflexivity.
  - unfold run. rewrite then_none_world. unfold bind at 1.
    rewrite set_temperature_cases. simpl.
    assert (forall e, existsb (isinstance e) [ValueError; AguaIOTError]
                      = absorbed (OpSetTemperature kwargs) e) as Hcls.
    { intros e. unfold absorbed, vendor_error. simpl.
      destruct (isinstance e ValueError), (isinstance e AguaIOTError); reflexivity. }
    destruct (Py.is_none _); [by left|].
    destruct (air_temperature (device w)), (water_temperature (device w));
      try (by left); right; eexists _, _; (split; [exact Hcls|]);
      unfold bind; reflexivity.
  - unfold run. rewrite then_none_world. unfold bind at 1.
    rewrite set_fan_mode_cases. simpl.
    destruct v as [|b|z|q|s|y|y]; try (by left);
      [ destruct (Py.isdigit s), (Py.int s) as [n|]
      | destruct (Py.bytes_isdigit y), (Py.bytes_int y) as [n|]
      | destruct (Py.bytes_isdigit y), (Py.bytes_int y) as [n|] ];
      try (by left);
      right; exists (AssignSetPower n), [AguaIOTError];
      (split; [intros e; unfold absorbed; simpl; reflexivity
              | unfold bind; reflexivity]).
  - unfold run, set_hvac_mode, failure_message.
    destruct (Py.eq_str v HVAC_MODE_OFF).
    { right. exists TurnOff, [AguaIOTError]. split; [|reflexivity].
      intros e. unfold absorbed. simpl. reflexivity. }
    destruct (Py.eq_str v HVAC_MODE_HEAT).
    { right. exists TurnOn, [AguaIOTError]. split; [|reflexivity].
      intros e. unfold absorbed. simpl. reflexivity. }
    by left.
Qed.

(** The one call a command makes, told from the trace. *)
Lemma command_call (lib : client) (op : operation) (w : world) (c : call) :
  op <> OpUpdate ->
  calls (snd (run lib op w)) = calls w ++ [c] ->
  exists cls,
    (forall e, existsb (isinstance e) cls = absorbed op e) /\
    run lib op w
    = (try_except (invoke lib c)
         [ (cls, fun err => logger_error (failure_message op) [ArgExn err]) ] ;;
       ret PyNone)%py w.
Proof.
  intros Hop Hcalls.
  destruct (command_shape lib op w Hop) as [Hsame | (c0 & cls & Hcls & Hrun)].
  - rewrite Hsame in Hcalls. by apply trace_grew in Hcalls.
  - rewrite Hrun, then_none_world in Hcalls.
    rewrite (proj1 (guarded_invoke_trace lib _ _ _ w)) in Hcalls.
    apply trace_last_inv in Hcalls as ->. eauto.
Qed.

Lemma update_call (lib : client) (w : world) (c : call) :
  calls (snd (run lib OpUpdate w)) = calls w ++ [c] -> c = Update.
Proof.
  unfold run, bind. rewrite update_outcome.
  destruct (Device.update lib (device w)) as [[e|] d']; simpl.
  - destruct (failure_of e); simpl; intros H; by apply trace_last_inv in H.
  - intros H. by apply trace_last_inv in H.
Qed.

Lemma update_or_command (op : operation) : op = OpUpdate \/ op <> OpUpdate.
Proof. destruct op; auto; right; discriminate. Qed.

(** X6: when the call an operation makes on the handle raises nothing,
    the operation logs nothing and returns: [True] from [update], [None]
    from a command; the handle is as the call left it. *)
Theorem success_is_silent
        (lib : client) (op : operation) (w : world) (c : call) (d' : handle) :
  calls (snd (run lib op w)) = calls w ++ [c] ->
  perform lib c (device w) = (None, d') ->
  run lib op w = (Returned (success_result op), called w c d').
Proof.
  intros Hcalls Hp.
  destruct (update_or_command op) as [->|Hop].
  - apply update_call in Hcalls as ->. simpl in Hp.
    unfold run, bind. rewrite update_outcome, Hp. reflexivity.
  - destruct (command_call lib op w c Hop Hcalls) as (cls & _ & ->).
    unfold bind. rewrite guarded_invoke_outcome, Hp.
    destruct op; try done.
Qed.

Lemma success_is_silent_witness :
  run Sample.steady OpUpdate (Sample.start Sample.stove)
    = (Returned (PyBool true),
       called (Sample.start Sample.stove) Update Sample.stove) /\
  run Sample.steady (OpSetHvacMode (PyStr "off")) (Sample.start Sample.stove)
    = (Returned PyNone,
       called (Sample.start Sample.stove) TurnOff Sample.stove).
Proof.
  split.
  - apply (success_is_silent Sample.steady OpUpdate
             (Sample.start Sample.stove) Update Sample.stove); reflexivity.
  - apply (success_is_silent Sample.steady (OpSetHvacMode (PyStr "off"))
             (Sample.start Sample.stove) TurnOff Sample.stove); reflexivity.
Defined.

(** X7: an exception the handle raises that the operation has no clause
    for (any non-vendor error; [ValueError] too, except in
    [set_temperature]) leaves the operation unchanged, with nothing logged. *)
Theorem unabsorbed_errors_cross
        (lib : client) (op : operation) (w : world)
        (c : call) (e : exn) (d' : handle) :
  calls (snd (run lib op w)) = calls w ++ [c] ->
  perform lib c (device w) = (Some e, d') ->
  absorbed op e = false ->
  run lib op w = (Raised e, called w c d').
Proof.
  intros Hcalls Hp Ha.
  destruct (update_or_command op) as [->|Hop].
  - apply update_call in Hcalls as ->. simpl in Hp.
    rewrite failure_of_absorbed in Ha. apply bool_decide_eq_false in Ha.
    unfold run, bind. rewrite update_outcome, Hp.
    destruct (failure_of e) as [k|]; [|reflexivity].
    destruct Ha. eauto.
  - destruct (command_call lib op w c Hop Hcalls) as (cls & Hcls & ->).
    unfold bind. rewrite guarded_invoke_outcome, Hp, Hcls, Ha. reflexivity.
Qed.

Lemma unabsorbed_errors_cross_witness :
  run Sample.ranged (OpSetFanMode (PyStr "9")) (Sample.start Sample.stove)
    = (Raised Sample.bad_value,
       called (Sample.start Sample.stove) (AssignSetPower 9) Sample.stove) /\
  run (Sample.failing Sample.crash) OpUpdate (Sample.start Sample.stove)
    = (Raised Sample.crash,
       called (Sample.start Sample.stove) Update Sample.stove).
Proof.
  split.
  - apply (unabsorbed_errors_cross Sample.ranged (OpSetFanMode (PyStr "9"))
             (Sample.start Sample.stove) (AssignSetPower 9) Sample.bad_value
             Sample.stove); reflexivity.
  - apply (unabsorbed_errors_cross (Sample.failing Sample.crash) OpUpdate
             (Sample.start Sample.stove) Update Sample.crash
             Sample.stove); reflexivity.
Defined.

(** X8: the record a command logs when it absorbs an error carries the
    command's own message and the error itself; [set_hvac_mode] logs the
    message of [turn_off] or [turn_on], whichever it ran. *)
Theorem absorbed_error_is_logged_by_command
        (lib : client) (op : operation) (w : world)
        (c : call) (e : exn) (d' : handle) :
  op <> OpUpdate ->
  calls (snd (run lib op w)) = calls w ++ [c] ->
  perform lib c (device w) = (Some e, d') ->
  absorbed op e = true ->
  run lib op w
  = (Returned PyNone,
     noted (called w c d') (LogError (failure_message op) [ArgExn e])).
Proof.
  intros Hop Hcalls Hp Ha.
  destruct (command_call lib op w c Hop Hcalls) as (cls & Hcls & ->).
  unfold bind. rewrite guarded_invoke_outcome, Hp, Hcls, Ha. reflexivity.
Qed.

Lemma absorbed_error_is_logged_by_command_witness :
  run (Sample.failing Sample.vendor_fault) (OpSetHvacMode (PyStr "heat"))
      (Sample.start Sample.stove)
    = (Returned PyNone,
       noted (called (Sample.start Sample.stove) TurnOn Sample.stove)
             (LogError "Failed to turn on device, error: %s"
                       [ArgExn Sample.vendor_fault])) /\
  run (Sample.failing Sample.bad_value)
      (OpSetTemperature (Sample.kw_temperature (PyStr "warm")))
      (Sample.start Sample.stove)
    = (Returned PyNone,
       noted (called (Sample.start Sample.stove)
                     (AssignSetAirTemperature (PyStr "warm")) Sample.stove)
             (LogError "Failed to set temperature, error: %s"
                       [ArgExn Sample.bad_value])).
Proof.
  split.
  - apply (absorbed_error_is_logged_by_command
             (Sample.failing Sample.vendor_fault) (OpSetHvacMode (PyStr "heat"))
             (Sample.start Sample.stove) TurnOn Sample.vendor_fault
             Sample.stove); [discriminate | reflexivity..].
  - apply (absorbed_error_is_logged_by_command
             (Sample.failing Sample.bad_value)
             (OpSetTemperature (Sample.kw_temperature (PyStr "warm")))
             (Sample.start Sample.stove)
             (AssignSetAirTemperature (PyStr "warm")) Sample.bad_value
             Sample.stove); [discriminate | reflexivity..].
Defined.

(** X9: an operation makes at most one call on the handle and logs at
    most one record, and it logs only after a call that raised an error
    it absorbs.  Without a call it leaves handle, trace and log untouched;
    what was in the trace and the log before stays in front. *)
Theorem one_call_one_record (lib : client) (op : operation) (w : world) :
  snd (run lib op w) = w \/
  exists c,
    calls (snd (run lib op w)) = calls w ++ [c] /\
    device (snd (run lib op w)) = snd (perform lib c (device w)) /\
    (logged (snd (run lib op w)) = logged w \/
     exists r e,
       logged (snd (run lib op w)) = logged w ++ [r] /\
       fst (perform lib c (device w)) = Some e /\
       absorbed op e = true).
Proof.
  destruct (update_or_command op) as [->|Hop].
  - right. exists Update. unfold run, bind. rewrite update_outcome. simpl.
    destruct (Device.update lib (device w)) as [[e|] d'] eqn:E; simpl.
    + destruct (failure_of e) as [k|] eqn:Hk; simpl.
      * repeat split. right. exists (update_record k d' e), e.
        repeat split. rewrite failure_of_absorbed.
        apply bool_decide_eq_true. rewrite Hk. eauto.
      * repeat split. by left.
    + repeat split. by left.
  - destruct (command_shape lib op w Hop) as [Hsame | (c & cls & Hcls & Hrun)];
      [by left|].
    right. exists c. rewrite Hrun. unfold bind.
    rewrite guarded_invoke_outcome.
    destruct (perform lib c (device w)) as [[e|] d'] eqn:E; simpl.
    + rewrite Hcls. destruct (absorbed op e) eqn:Ha; simpl.
      * repeat split. right. eauto.
      * repeat split. by left.
    + repeat split. by left.
Qed.

(* ===================================================================== *)
(** ** Fan modes and setpoints, written and read back *)
(* ===================================================================== *)

Lemma listed_fan_mode_is_set_witness :
  exists k, min_power Sample.stove <= k <= max_power Sample.stove /\
            "2" = Py.str k /\
            calls (snd (set_fan_mode Sample.steady (PyStr "2")
                                     (Sample.start Sample.stove)))
              = calls (Sample.start Sample.stove) ++ [AssignSetPower k].
Proof.
  apply (listed_fan_mode_is_set Sample.steady Sample.stove
           (Sample.start Sample.stove) "2").
  - discriminate.
  - apply list_elem_of_In. vm_compute. tauto.
Defined.

Lemma str_negative_not_digits (k : Z) : k < 0 -> Py.isdigit (Py.str k) = false.
Proof.
  intros Hk. destruct k as [|p|p]; [lia | lia |]. reflexivity.
Qed.

(** X11: a negative power level is listed by [fan_modes] when the range
    reaches below zero, but [set_fan_mode] ignores its string: the minus
    sign fails [isdigit], so nothing is called and nothing is logged. *)
Theorem negative_level_is_listed_but_ignored
        (lib : client) (d : handle) (w : world) (k : Z) :
  min_power d <= k <= max_power d ->
  k < 0 ->
  Py.str k ∈ fan_modes d /\
  set_fan_mode lib (PyStr (Py.str k)) w = (Returned tt, w).
Proof.
  intros Hrange Hneg. split.
  - rewrite fan_modes_map. apply list_elem_of_fmap. exists k.
    split; [reflexivity|]. apply elem_of_seqZ. lia.
  - rewrite set_fan_mode_cases. simpl.
    rewrite (str_negative_not_digits k Hneg). reflexivity.
Qed.

Lemma negative_level_is_listed_but_ignored_witness :
  "-1" ∈ fan_modes Sample.odd_levels /\
  set_fan_mode Sample.steady (PyStr "-1") (Sample.start Sample.odd_levels)
    = (Returned tt, Sample.start Sample.odd_levels).
Proof.
  apply (negative_level_is_listed_but_ignored Sample.steady Sample.odd_levels
           (Sample.start Sample.odd_levels) (-1)).
  - split; discriminate.
  - reflexivity.
Defined.

(** X12: what [set_fan_mode] does with an argument it cannot use, always
    without a call or a log record: [None], and a [str], [bytes] or
    [bytearray] that fails [isdigit], are dropped silently; a [bool], [int]
    or [float] raises [AttributeError]; a [str] that passes [isdigit] with
    a character that is no decimal digit (a superscript, say) raises
    [ValueError]. *)
Theorem set_fan_mode_unusable_argument (lib : client) (v : pyval) (w : world) :
  (v = PyNone \/
   (exists s, v = PyStr s /\ Py.isdigit s = false) \/
   (exists b, (v = PyBytes b \/ v = PyByteArray b) /\
              Py.bytes_isdigit b = false) ->
   set_fan_mode lib v w = (Returned tt, w)) /\
  ((exists b, v = PyBool b) \/ (exists z, v = PyInt z) \/
   (exists q, v = PyFloat q) ->
   exists msg, set_fan_mode lib v w = (Raised (Exn AttributeError msg), w)) /\
  (forall s, v = PyStr s -> Py.isdigit s = true -> ~ Forall decimal_digit s ->
   exists msg, set_fan_mode lib v w = (Raised (Exn ValueError msg), w)).
Proof.
  rewrite set_fan_mode_cases. simpl. split; [|split].
  - intros [-> | [(s & -> & Hd) | (b & [-> | ->] & Hd)]];
      [reflexivity | by rewrite Hd..].
  - intros [(b & ->) | [(z & ->) | (q & ->)]]; by eexists.
  - intros s -> Hd Hn. rewrite Hd.
    rewrite (PyFacts.isdigit_not_decimal_int s Hd Hn). by eexists.
Qed.

Lemma set_fan_mode_unusable_argument_witness :
  set_fan_mode Sample.ranged (PyStr "") (Sample.start Sample.stove)
    = (Returned tt, Sample.start Sample.stove) /\
  set_fan_mode Sample.ranged (PyBytes "+2") (Sample.start Sample.stove)
    = (Returned tt, Sample.start Sample.stove) /\
  (exists msg,
     set_fan_mode Sample.ranged (PyInt 2) (Sample.start Sample.stove)
       = (Raised (Exn AttributeError msg), Sample.start Sample.stove)) /\
  (exists msg,
     set_fan_mode Sample.ranged (PyStr [178]) (Sample.start Sample.stove)
       = (Raised (Exn ValueError msg), Sample.start Sample.stove)).
Proof.
  split; [|split; [|split]].
  - apply (proj1 (set_fan_mode_unusable_argument Sample.ranged (PyStr "")
                    (Sample.start Sample.stove))).
    right. left. exists []. split; reflexivity.
  - apply (proj1 (set_fan_mode_unusable_argument Sample.ranged (PyBytes "+2")
                    (Sample.start Sample.stove))).
    right. right. exists "+2". split; [by left | reflexivity].
  - apply (proj1 (proj2 (set_fan_mode_unusable_argument Sample.ranged (PyInt 2)
                    (Sample.start Sample.stove)))).
    right. left. by exists 2.
  - apply (proj2 (proj2 (set_fan_mode_unusable_argument Sample.ranged
                    (PyStr [178]) (Sample.start Sample.stove)))
             [178]); [reflexivity | reflexivity |].
    intros Hall. apply Forall_cons in Hall as [[d Hd] _]. discriminate Hd.
Defined.

Lemma set_temperature_device (lib : client) (kwargs : gmap string pyval)
      (w : world) (t : pyval) :
  kwargs !! ATTR_TEMPERATURE = Some t -> t <> PyNone ->
  device (snd (set_temperature lib kwargs w))
  = match air_temperature (device w), water_temperature (device w) with
    | Some _, _ => snd (assign_set_air_temperature lib t (device w))
    | None, Some _ => snd (assign_set_water_temperature lib t (device w))
    | None, None => device w
    end.
Proof.
  intros Ht Hnn. rewrite set_temperature_cases. simpl.
  rewrite (dict_get_present _ _ _ Ht), (is_none_false _ Hnn).
  destruct (air_temperature (device w)), (water_temperature (device w));
    try reflexivity; apply guarded_invoke_trace.
Qed.

(** X13: reading [target_temperature] after [set_temperature], when the
    library keeps the assigned value [q] in the setpoint it was assigned
    to.  With a live air sensor the target read back is [q].  With only
    the water sensor live the value goes to the water setpoint, but
    [target_temperature] still looks at the air setpoint first: it is [q]
    only if the handle has no air setpoint. *)
Theorem target_temperature_after_set_temperature
        (lib : client) (kwargs : gmap string pyval) (w : world)
        (t : pyval) (q : Q) :
  kwargs !! ATTR_TEMPERATURE = Some t -> t <> PyNone ->
  let after := device (snd (set_temperature lib kwargs w)) in
  (air_temperature (device w) <> None ->
   set_air_temperature (snd (assign_set_air_temperature lib t (device w)))
     = Some q ->
   target_temperature after = Some q) /\
  (air_temperature (device w) = None ->
   water_temperature (device w) <> None ->
   set_water_temperature (snd (assign_set_water_temperature lib t (device w)))
     = Some q ->
   target_temperature after
   = match set_air_temperature
             (snd (assign_set_water_temperature lib t (device w))) with
     | Some x => Some x
     | None => Some q
     end).
Proof.
  intros Ht Hnn. simpl. rewrite (set_temperature_device lib kwargs w t Ht Hnn).
  unfold target_temperature. split.
  - intros Hair Hq. destruct (air_temperature (device w)); [|done].
    by rewrite Hq.
  - intros Hair Hwater Hq. rewrite Hair.
    destruct (water_temperature (device w)); [|done].
    destruct (set_air_temperature _); [reflexivity | exact Hq].
Qed.

Lemma target_temperature_after_set_temperature_witness :
  target_temperature
    (device (snd (set_temperature Sample.storing
                    (Sample.kw_temperature (PyFloat (43 # 2)%Q))
                    (Sample.start Sample.stove)))) = Some (43 # 2)%Q /\
  target_temperature
    (device (snd (set_temperature Sample.storing
                    (Sample.kw_temperature (PyFloat (55 # 1)%Q))
                    (Sample.start Sample.boiler_water_only)))) = Some (55 # 1)%Q /\
  target_temperature
    (device (snd (set_temperature Sample.storing
                    (Sample.kw_temperature (PyFloat (55 # 1)%Q))
                    (Sample.start Sample.boiler_with_air_setpoint))))
    = Some (22 # 1)%Q.
Proof.
  split; [|split].
  - apply (proj1 (target_temperature_after_set_temperature Sample.storing
                    (Sample.kw_temperature (PyFloat (43 # 2)%Q))
                    (Sample.start Sample.stove) (PyFloat (43 # 2)%Q) (43 # 2)%Q
                    eq_refl ltac:(discriminate)));
      [discriminate | reflexivity].
  - apply (proj2 (target_temperature_after_set_temperature Sample.storing
                    (Sample.kw_temperature (PyFloat (55 # 1)%Q))
                    (Sample.start Sample.boiler_water_only)
                    (PyFloat (55 # 1)%Q) (55 # 1)%Q
                    eq_refl ltac:(discriminate)));
      [reflexivity | discriminate | reflexivity].
  - apply (proj2 (target_temperature_after_set_temperature Sample.storing
                    (Sample.kw_temperature (PyFloat (55 # 1)%Q))
                    (Sample.start Sample.boiler_with_air_setpoint)
                    (PyFloat (55 # 1)%Q) (55 # 1)%Q
                    eq_refl ltac:(discriminate)));
      [reflexivity | discriminate | reflexivity].
Defined.

(** X14: reading [fan_mode] after [set_fan_mode], when the library keeps
    the assigned level in [set_power]: a numeral reads back as the plain
    decimal string of its value (so "007" reads back as "7"), and the
    string of a non-negative integer reads back as itself. *)
Theorem fan_mode_after_set_fan_mode (lib : client) (w : world) (s : string) :
  numeral s ->
  set_power (snd (assign_set_power lib (numeral_value s) (device w)))
    = numeral_value s ->
  fan_mode (device (snd (set_fan_mode lib (PyStr s) w)))
    = Py.str (numeral_value s) /\
  (forall n, 0 <= n -> s = Py.str n ->
             fan_mode (device (snd (set_fan_mode lib (PyStr s) w))) = s).
Proof.
  intros Hs Hkept.
  destruct (PyFacts.numeral_int s Hs) as (Hd & Hi & _).
  assert (fan_mode (device (snd (set_fan_mode lib (PyStr s) w)))
          = Py.str (numeral_value s)) as Hread.
  { rewrite set_fan_mode_cases. simpl. rewrite Hd, Hi.
    rewrite (proj2 (guarded_invoke_trace lib _ _ _ w)). simpl.
    unfold fan_mode. by rewrite Hkept. }
  split; [exact Hread|].
  intros n Hn ->. rewrite Hread.
  by rewrite (proj2 (StrFacts.str_numeral n Hn)).
Qed.

Lemma fan_mode_after_set_fan_mode_witness :
  fan_mode (device (snd (set_fan_mode Sample.storing (PyStr "007")
                                      (Sample.start Sample.stove)))) = "7" /\
  fan_mode (device (snd (set_fan_mode Sample.storing (PyStr "3")
                                      (Sample.start Sample.stove)))) = "3".
Proof.
  assert (numeral "007") as H7.
  { split; [discriminate|]. repeat constructor. }
  assert (numeral "3") as H3.
  { split; [discriminate|]. repeat constructor. }
  split.
  - apply (proj1 (fan_mode_after_set_fan_mode Sample.storing
                    (Sample.start Sample.stove) "007" H7 eq_refl)).
  - apply (proj2 (fan_mode_after_set_fan_mode Sample.storing
                    (Sample.start Sample.stove) "3" H3 eq_refl) 3);
      [discriminate | reflexivity].
Defined.
